(** * gym-saas: trial bookings, gym ownership and the gym directory query

    A shallow embedding of the request handlers of [app/routes/trials.py] and
    [app/routes/gyms.py], of the functions of [app/crud.py] they call, and of the
    tables of [app/models.py].

    - A table is the list of its rows in insertion order; the session's unit of
      work addresses a row by its primary key, as the ORM does.  The order in
      which a query without [ORDER BY] lists rows is the database's choice:
      the list fixes one, and an update keeps a row at its place in it.
    - A handler is a computation over the committed database: it returns a
      value, raises [HTTPException], or leaves a Python exception unhandled.
      Every handler below raises before it writes or commits at once after it
      writes, so a raise leaves the database as it was.
    - [datetime.utcnow] is an argument of the handler that reads the clock.
    - The handlers are modelled as the Python functions they are; the encoding
      of the returned row by the route's [response_model] is not part of them. *)

From Stdlib Require Import QArith.
From Stdlib Require Import Ascii.
From stdpp Require Import base option list strings numbers.

Set Default Proof Using "Type".
Open Scope Z_scope.

(** ** Values *)

(** [DateTime] columns and [datetime] fields: a point in time. *)
Definition datetime := Z.

(** [Float] columns and [float] parameters.  No arithmetic is done on them; a
    finite float is the rational it denotes. *)
Definition float := Q.

(** * app/models.py *)

(** [class UserRole(enum.Enum)]: a plain enumeration. *)
Inductive UserRole := seeker | gym_owner | customer | admin.

(** [class TrialStatus(str, enum.Enum)]: an enumeration whose members are
    strings. *)
Inductive TrialStatus := pending | accepted | rejected.

#[global] Instance UserRole_eq_dec : EqDecision UserRole.
Proof. solve_decision. Defined.

#[global] Instance TrialStatus_eq_dec : EqDecision TrialStatus.
Proof. solve_decision. Defined.

(** The value of a member of [TrialStatus]. *)
Definition TrialStatus_value (s : TrialStatus) : string :=
  match s with
  | pending => "pending"
  | accepted => "accepted"
  | rejected => "rejected"
  end.

(** The name of a member of [TrialStatus]: what the column [Enum(TrialStatus)]
    stores, and what it accepts in place of a member. *)
Definition TrialStatus_name (s : TrialStatus) : string :=
  match s with
  | pending => "pending"
  | accepted => "accepted"
  | rejected => "rejected"
  end.

(** The column type [Enum(TrialStatus)] binding a string: the member of that
    name, if there is one. *)
Definition TrialStatus_of_name (s : string) : option TrialStatus :=
  if String.eqb s "pending" then Some pending
  else if String.eqb s "accepted" then Some accepted
  else if String.eqb s "rejected" then Some rejected
  else None.

Module User.
Record t := mk {
  id : Z;
  name : string;
  email : string;
  hashed_password : string;
  role : UserRole
}.

End User.

Module Gym.
Record t := mk {
  id : Z;
  owner_id : Z;
  name : string;
  address : string;
  subscription_fee : Z;
  trial_available : option bool;
  description : option string;
  location_lat : option float;
  location_lng : option float;
  created_at : option datetime
}.
End Gym.

Module Trainer.
Record t := mk {
  id : Z;
  gym_id : Z;
  name : string;
  specialty : option string;
  fee : option Z
}.
End Trainer.

Module TrialBooking.
Record t := mk {
  id : Z;
  user_id : Z;
  gym_id : Z;
  status : TrialStatus;
  created_at : option datetime
}.

Definition with_status (b : t) (s : TrialStatus) : t :=
  {| id := id b; user_id := user_id b; gym_id := gym_id b;
     status := s; created_at := created_at b |}.

(** What [hasattr(TrialBooking, k)] accepts among the keyword names a caller
    may pass to the constructor: the mapped columns and relationships. *)
Definition attributes : list string :=
  ["id"; "user_id"; "gym_id"; "status"; "created_at"; "user"; "gym"].
End TrialBooking.

(** * The database *)

Record Db := mkDb {
  users : list User.t;
  gyms : list Gym.t;
  trainers : list Trainer.t;
  trial_bookings : list TrialBooking.t;
  (** the sequence behind [trial_bookings.id] *)
  trial_bookings_id_seq : Z
}.

Definition set_gyms (db : Db) (l : list Gym.t) : Db :=
  {| users := users db; gyms := l; trainers := trainers db;
     trial_bookings := trial_bookings db;
     trial_bookings_id_seq := trial_bookings_id_seq db |}.

Definition set_trial_bookings (db : Db) (l : list TrialBooking.t) : Db :=
  {| users := users db; gyms := gyms db; trainers := trainers db;
     trial_bookings := l;
     trial_bookings_id_seq := trial_bookings_id_seq db |}.

(** * Python values and exceptions *)

Inductive pyval :=
  | PNone
  | PInt (n : Z)
  | PStr (s : string)
  | PDatetime (d : datetime)
  | PUserRole (r : UserRole)
  | PTrialStatus (s : TrialStatus).

(** [a == b].  A member of the plain enumeration [UserRole] equals only
    itself: compared with a [str] it is unequal.  A member of [TrialStatus] is
    a [str] and compares as its value. *)
Definition py_eq (a b : pyval) : bool :=
  match a, b with
  | PNone, PNone => true
  | PInt m, PInt n => bool_decide (m = n)
  | PStr s, PStr t => String.eqb s t
  | PDatetime d, PDatetime e => bool_decide (d = e)
  | PUserRole r, PUserRole r' => bool_decide (r = r')
  | PTrialStatus s, PTrialStatus t => bool_decide (s = t)
  | PTrialStatus s, PStr t => String.eqb (TrialStatus_value s) t
  | PStr t, PTrialStatus s => String.eqb t (TrialStatus_value s)
  | _, _ => false
  end.

(** [a != b] *)
Definition py_ne (a b : pyval) : bool := negb (py_eq a b).

(** [a in l], for a list or a set [l] of values. *)
Definition py_in (a : pyval) (l : list pyval) : bool := existsb (py_eq a) l.

Inductive PyError :=
  | AttributeError (obj attr : string)
  | TypeError (msg : string)
  | IntegrityError (msg : string)
  | DataError (msg : string)
  | DBAPIError (msg : string).

(** The [detail] of an [HTTPException].  [StatusMustBeOneOf] stands for the
    f-string [f"Status must be one of {allowed_statuses}"], whose text prints a
    set in an order Python does not fix. *)
Inductive Detail :=
  | Text (s : string)
  | StatusMustBeOneOf (allowed : list TrialStatus).

Inductive outcome (A : Type) :=
  | Return (a : A)
  | HTTPException (status_code : Z) (detail : Detail)
  | Unhandled (e : PyError).
Arguments Return {A} a.
Arguments HTTPException {A} status_code detail.
Arguments Unhandled {A} e.

(** * Handlers: state and exceptions *)

Definition M (A : Type) : Type := Db → outcome A * Db.

#[global] Instance M_ret : MRet M := λ A a db, (Return a, db).

#[global] Instance M_bind : MBind M := λ A B f m db,
  match m db with
  | (Return a, db') => f a db'
  | (HTTPException c d, db') => (HTTPException c d, db')
  | (Unhandled e, db') => (Unhandled e, db')
  end.

Definition raise {A} (status_code : Z) (detail : string) : M A :=
  λ db, (HTTPException status_code (Text detail), db).

Definition throw {A} (e : PyError) : M A := λ db, (Unhandled e, db).

(** [db.query(...)]: reads the committed tables. *)
Definition query {A} (table : Db → list A) : M (list A) :=
  λ db, (Return (table db), db).

(** [.first()] *)
Definition first {A} (rows : list A) : option A := head rows.

(** Truth of an optional row: [if not gym], [if existing_trial]. *)
Definition truthy {A} (o : option A) : bool :=
  match o with Some _ => true | None => false end.

(** [getattr(module, attr)] on a module that binds [names] at its top level.
    The call of the attribute found is not part of this step. *)
Definition module_getattr (module : string) (names : list string)
    (attr : string) : M unit :=
  if existsb (String.eqb attr) names then mret ()
  else throw (AttributeError module attr).

(** * SQL expressions over the [gyms] table *)

Inductive sqlval :=
  | SNull
  | SInt (n : Z)
  | SText (s : string)
  | SBool (b : bool)
  | SFloat (q : float)
  | STimestamp (d : datetime).

Definition sql_of_option {A} (f : A → sqlval) (o : option A) : sqlval :=
  match o with Some a => f a | None => SNull end.

(** A mapped column of [models.Gym]: the value a row has in it. *)
Definition column := Gym.t → sqlval.

(** [getattr(models.Gym, name)] for the mapped columns of the class.  The
    class has no column, relationship or other attribute called [location],
    [subscription_price] or [has_trial]. *)
Definition Gym_column (name : string) : option column :=
  if String.eqb name "id" then Some (λ g, SInt (Gym.id g))
  else if String.eqb name "owner_id" then Some (λ g, SInt (Gym.owner_id g))
  else if String.eqb name "name" then Some (λ g, SText (Gym.name g))
  else if String.eqb name "address" then Some (λ g, SText (Gym.address g))
  else if String.eqb name "subscription_fee" then
    Some (λ g, SInt (Gym.subscription_fee g))
  else if String.eqb name "trial_available" then
    Some (λ g, sql_of_option SBool (Gym.trial_available g))
  else if String.eqb name "description" then
    Some (λ g, sql_of_option SText (Gym.description g))
  else if String.eqb name "location_lat" then
    Some (λ g, sql_of_option SFloat (Gym.location_lat g))
  else if String.eqb name "location_lng" then
    Some (λ g, sql_of_option SFloat (Gym.location_lng g))
  else if String.eqb name "created_at" then
    Some (λ g, sql_of_option STimestamp (Gym.created_at g))
  else None.

Definition Gym_getattr (name : string) : M column :=
  match Gym_column name with
  | Some c => mret c
  | None => throw (AttributeError "Gym" name)
  end.

(** Case folding of [ILIKE], on the ASCII letters. *)
Definition lower (c : Ascii.ascii) : Ascii.ascii :=
  let n := Ascii.nat_of_ascii c in
  if (65 <=? n)%nat && (n <=? 90)%nat then Ascii.ascii_of_nat (n + 32) else c.

(** [LIKE]: [%] matches any run of characters, [_] any one character.  The
    escape character of the database is not modelled. *)
Fixpoint like_match (p s : list Ascii.ascii) : bool :=
  match p with
  | [] => match s with [] => true | _ => false end
  | c :: p' =>
      if Ascii.eqb c "%"%char then
        (fix star (s : list Ascii.ascii) : bool :=
           like_match p' s ||
           match s with [] => false | _ :: s' => star s' end) s
      else
        match s with
        | [] => false
        | d :: s' => (Ascii.eqb c "_"%char || Ascii.eqb c d) && like_match p' s'
        end
  end.

(** A condition of a [WHERE] clause: true, false, or unknown ([None]) on a
    row.  A comparison with [NULL] is unknown; a comparison the column's type
    does not admit is rendered as unknown too. *)
Definition condition := Gym.t → option bool.

(** [col.ilike(pattern)] *)
Definition ilike (col : column) (pattern : string) : condition := λ g,
  match col g with
  | SText s =>
      Some (like_match (lower <$> String.list_ascii_of_string pattern)
                       (lower <$> String.list_ascii_of_string s))
  | _ => None
  end.

(** [col >= v] *)
Definition sql_ge (col : column) (v : float) : condition := λ g,
  match col g with
  | SInt n => Some (Qle_bool v (inject_Z n))
  | SFloat q => Some (Qle_bool v q)
  | _ => None
  end.

(** [col <= v] *)
Definition sql_le (col : column) (v : float) : condition := λ g,
  match col g with
  | SInt n => Some (Qle_bool (inject_Z n) v)
  | SFloat q => Some (Qle_bool q v)
  | _ => None
  end.

(** [col == b] *)
Definition sql_eq_bool (col : column) (b : bool) : condition := λ g,
  match col g with
  | SBool c => Some (Bool.eqb c b)
  | _ => None
  end.

(** A row passes the filters of a query when each of them is true on it. *)
Definition passes (conds : list condition) (g : Gym.t) : bool :=
  forallb (λ c, match c g with Some true => true | _ => false end) conds.

(** [query.all()] over the [gyms] table. *)
Definition all (conds : list condition) : M (list Gym.t) :=
  rows ← query gyms; mret (List.filter (passes conds) rows).

(** [query.offset(skip).limit(limit).all()]: the database refuses a negative
    [OFFSET] or [LIMIT]. *)
Definition offset_limit_all (conds : list condition) (skip limit : Z)
    : M (list Gym.t) :=
  if bool_decide (skip < 0) || bool_decide (limit < 0) then
    throw (DBAPIError "OFFSET and LIMIT must not be negative")
  else
    rows ← all conds;
    mret (take (Z.to_nat limit) (drop (Z.to_nat skip) rows)).

(** * The session's unit of work on [trial_bookings] *)

(** [models.TrialBooking(...)] with keyword arguments: the declarative constructor refuses a
    keyword that is not an attribute of the class, and keeps the others. *)
Definition TrialBooking_new (kwargs : list (string * pyval))
    : M (list (string * pyval)) :=
  match List.find
          (λ kv, negb (existsb (String.eqb kv.1) TrialBooking.attributes))
          kwargs with
  | Some kv =>
      throw (TypeError
               (kv.1 +:+ " is an invalid keyword argument for TrialBooking"))
  | None => mret kwargs
  end.

Definition kwarg (k : string) (kwargs : list (string * pyval))
    : option pyval :=
  snd <$> List.find (λ kv, String.eqb kv.1 k) kwargs.

(** The value bound for the column [status]: a member, the name of one, or
    the column's default when none was given. *)
Definition status_column (v : option pyval) : option TrialStatus :=
  match v with
  | None => Some pending
  | Some (PTrialStatus s) => Some s
  | Some (PStr s) => TrialStatus_of_name s
  | Some _ => None
  end.

(** [db.add(trial_booking); db.commit(); db.refresh(trial_booking)]: the row
    gets its [id] from the sequence and [created_at] from the clock. *)
Definition add_commit_refresh (obj : list (string * pyval))
    (utcnow : datetime) : M TrialBooking.t := λ db,
  match kwarg "user_id" obj, kwarg "gym_id" obj,
        status_column (kwarg "status" obj) with
  | Some (PInt user_id), Some (PInt gym_id), Some status =>
      let row :=
        {| TrialBooking.id := trial_bookings_id_seq db;
           TrialBooking.user_id := user_id;
           TrialBooking.gym_id := gym_id;
           TrialBooking.status := status;
           TrialBooking.created_at := Some utcnow |} in
      (Return row,
       {| users := users db; gyms := gyms db; trainers := trainers db;
          trial_bookings := trial_bookings db ++ [row];
          trial_bookings_id_seq := trial_bookings_id_seq db + 1 |})
  | _, _, _ =>
      (Unhandled (IntegrityError "trial_bookings: a column has no valid value"),
       db)
  end.

(** [UPDATE trial_bookings SET status = :status WHERE trial_bookings.id = :id] *)
Definition write_status (id : Z) (s : TrialStatus) : M unit := λ db,
  (Return (),
   set_trial_bookings db
     ((λ b, if bool_decide (TrialBooking.id b = id)
            then TrialBooking.with_status b s else b) <$> trial_bookings db)).

(** [trial.status = status; db.commit(); db.refresh(trial); return trial].
    The column binds the string as the name of a member; the database refuses
    any other string. *)
Definition assign_status_commit_refresh (trial : TrialBooking.t)
    (status : string) : M TrialBooking.t :=
  match TrialStatus_of_name status with
  | None => throw (DBAPIError "invalid input value for enum trialstatus")
  | Some s =>
      write_status (TrialBooking.id trial) s;;
      rows ← query trial_bookings;
      match first (filter (λ b, TrialBooking.id b = TrialBooking.id trial)
                     rows) with
      | Some trial => mret trial
      | None => throw (DBAPIError "could not refresh instance")
      end
  end.

(** * Inserting rows: the constraints the database checks at commit *)

Definition set_users (db : Db) (l : list User.t) : Db :=
  {| users := l; gyms := gyms db; trainers := trainers db;
     trial_bookings := trial_bookings db;
     trial_bookings_id_seq := trial_bookings_id_seq db |}.


(** A column declared [primary_key=True] or [unique=True]: the value must not
    be in the table yet. *)
Definition unique {A K} `{EqDecision K} (table : Db → list A) (key : A → K)
    (constraint : string) (k : K) : M unit :=
  rows ← query table;
  if bool_decide (k ∈ key <$> rows) then
    throw (IntegrityError
             ("duplicate key value violates unique constraint " +:+ constraint))
  else mret ().

(** A column declared [ForeignKey(...)]: the value must be a key of the table
    referred to. *)
Definition foreign_key {A} (table : Db → list A) (key : A → Z)
    (constraint : string) (k : Z) : M unit :=
  rows ← query table;
  if bool_decide (k ∈ key <$> rows) then mret ()
  else
    throw (IntegrityError
             ("insert violates foreign key constraint " +:+ constraint)).

(** A value bound for an [Integer] column: a 32-bit integer of the database,
    which refuses any other with "integer out of range" before it looks at
    the constraints of the table. *)
Definition int4 (n : Z) : Prop := -2147483648 ≤ n ≤ 2147483647.

#[global] Instance int4_dec n : Decision (int4 n).
Proof. unfold int4. apply _. Defined.

Definition integer (column_name : string) (n : Z) : M unit :=
  if bool_decide (int4 n) then mret ()
  else throw (DataError ("integer out of range: " +:+ column_name)).

(** The same for a value that may be null. *)
Definition integer_or_null (column_name : string) (n : option Z) : M unit :=
  match n with
  | Some n => integer column_name n
  | None => mret ()
  end.

(** The sequences behind [users.id], [gyms.id] and [trainers.id] are not part
    of [Db]: the value the sequence hands out is an argument, [nextval], of
    the function that inserts. *)
Definition append_user (row : User.t) : M User.t :=
  λ db, (Return row, set_users db (users db ++ [row])).

Definition append_gym (row : Gym.t) : M Gym.t :=
  λ db, (Return row, set_gyms db (gyms db ++ [row])).


(** [db.add(row); db.commit(); db.refresh(row)] *)
Definition insert_user (row : User.t) : M User.t :=
  unique users User.id "users_pkey" (User.id row);;
  unique users User.email "ix_users_email" (User.email row);;
  append_user row.

Definition insert_gym (row : Gym.t) : M Gym.t :=
  integer "subscription_fee" (Gym.subscription_fee row);;
  unique gyms Gym.id "gyms_pkey" (Gym.id row);;
  foreign_key users User.id "gyms_owner_id_fkey" (Gym.owner_id row);;
  append_gym row.


(** The value the sequence of [trial_bookings.id] hands out next. *)
Definition trial_bookings_nextval : M Z :=
  λ db, (Return (trial_bookings_id_seq db), db).

(** The members of [UserRole] by name: [models.UserRole.<name>]. *)
Definition UserRole_member (name : string) : option UserRole :=
  if String.eqb name "seeker" then Some seeker
  else if String.eqb name "gym_owner" then Some gym_owner
  else if String.eqb name "customer" then Some customer
  else if String.eqb name "admin" then Some admin
  else None.

(** * app/schemas.py *)

Module schemas.

(** [class TrialBookingCreate(TrialBookingBase): pass], whose one field is
    [gym_id: int].  A field of the request body that the class does not
    declare is dropped when the body is parsed. *)
Record TrialBookingCreate := { gym_id : Z }.

(** [trial.<name>] on a [TrialBookingCreate]. *)
Definition TrialBookingCreate_getattr (trial : TrialBookingCreate)
    (name : string) : M pyval :=
  if String.eqb name "gym_id" then mret (PInt (gym_id trial))
  else throw (AttributeError "TrialBookingCreate" name).

(** Modelled from the spec: [schemas.TrialStatusUpdate], the body of
    [PUT /trials/{id}/status], which [app/schemas.py] does not declare.  The
    spec gives it one field, [status_update]; the handler checks that field
    against the valid statuses itself, so it is a string as received. *)
Record TrialStatusUpdate := { status_update : string }.

(** [class GymUpdate(BaseModel)]: each field is unset ([None]), or set to
    [null] ([Some None]) or to a value. *)
Record GymUpdate := {
  name : option (option string);
  address : option (option string);
  subscription_fee : option (option Z);
  trial_available : option (option bool);
  description : option (option string);
  location_lat : option (option float);
  location_lng : option (option float)
}.

(** [class Token(BaseModel)] *)
Record Token := { access_token : string; token_type : string }.

Module UserCreate.
Record t := mk {
  name : string;
  email : string;
  password : string;
  role : UserRole
}.
End UserCreate.

(** [class GymCreate(GymBase): pass] *)
Module GymCreate.
Record t := mk {
  name : string;
  address : string;
  subscription_fee : Z;
  trial_available : option bool;
  description : option string;
  location_lat : option float;
  location_lng : option float
}.
End GymCreate.

(** [class TrainerCreate(TrainerBase): pass] *)
Module TrainerCreate.
Record t := mk {
  name : string;
  specialty : option string;
  fee : option Z
}.
End TrainerCreate.

End schemas.

(** * app/crud.py *)

Module crud.

(** The names [crud.py] binds at its top level: what it imports and the
    functions it defines. *)
Definition names : list string :=
  ["Session"; "and_"; "models"; "schemas"; "List"; "Optional";
   "get_user_by_email"; "get_user"; "create_user";
   "create_gym"; "get_gyms"; "get_gym"; "update_gym"; "list_gyms";
   "add_trainer"; "list_trainers_by_gym";
   "create_trial_request"; "list_trial_requests_for_gym";
   "update_trial_status"].

(** Truth of an optional string: [if location]. *)
Definition str_truthy (o : option string) : bool :=
  match o with
  | Some s => negb (String.eqb s "")
  | None => false
  end.

Definition get_gyms (skip limit : Z) (location : option string)
    (min_price max_price : option float) (has_trial : option bool)
    : M (list Gym.t) :=
  let query : list condition := [] in
  query ←
    (if str_truthy location then
       col ← Gym_getattr "location";
       mret (query ++ [ilike col ("%" +:+ default "" location +:+ "%")])
     else mret query);
  query ←
    match min_price with
    | Some min_price =>
        col ← Gym_getattr "subscription_price";
        mret (query ++ [sql_ge col min_price])
    | None => mret query
    end;
  query ←
    match max_price with
    | Some max_price =>
        col ← Gym_getattr "subscription_price";
        mret (query ++ [sql_le col max_price])
    | None => mret query
    end;
  query ←
    match has_trial with
    | Some has_trial =>
        col ← Gym_getattr "has_trial";
        mret (query ++ [sql_eq_bool col has_trial])
    | None => mret query
    end;
  offset_limit_all query skip limit.

Definition get_gym (gym_id : Z) : M (option Gym.t) :=
  rows ← query gyms;
  mret (first (filter (λ g, Gym.id g = gym_id) rows)).

(** A column declared [nullable=False] refuses [NULL]. *)
Definition not_null {A} (column_name : string) (current : A)
    (set : option (option A)) : M A :=
  match set with
  | None => mret current
  | Some (Some v) => mret v
  | Some None =>
      throw (IntegrityError
               ("null value in column " +:+ column_name +:+
                " violates not-null constraint"))
  end.

Definition nullable {A} (current : option A) (set : option (option A))
    : option A :=
  match set with
  | None => current
  | Some v => v
  end.

(** [UPDATE gyms SET ... WHERE gyms.id = :id] *)
Definition write_gym (g' : Gym.t) : M unit := λ db,
  (Return (),
   set_gyms db
     ((λ g, if bool_decide (Gym.id g = Gym.id g') then g' else g) <$> gyms db)).

Definition update_gym (gym_id : Z) (gym_update : schemas.GymUpdate)
    : M (option Gym.t) :=
  rows ← query gyms;
  match first (filter (λ g, Gym.id g = gym_id) rows) with
  | None => mret None
  | Some db_gym =>
      (* the loop of setattr, flushed by db.commit(): the UPDATE converts the
         values it binds before it checks the constraints of the row *)
      integer_or_null "subscription_fee"
        (mjoin (schemas.subscription_fee gym_update));;
      name ← not_null "name" (Gym.name db_gym) (schemas.name gym_update);
      address ←
        not_null "address" (Gym.address db_gym) (schemas.address gym_update);
      subscription_fee ←
        not_null "subscription_fee" (Gym.subscription_fee db_gym)
          (schemas.subscription_fee gym_update);
      let db_gym' :=
        {| Gym.id := Gym.id db_gym;
           Gym.owner_id := Gym.owner_id db_gym;
           Gym.name := name;
           Gym.address := address;
           Gym.subscription_fee := subscription_fee;
           Gym.trial_available :=
             nullable (Gym.trial_available db_gym)
               (schemas.trial_available gym_update);
           Gym.description :=
             nullable (Gym.description db_gym) (schemas.description gym_update);
           Gym.location_lat :=
             nullable (Gym.location_lat db_gym)
               (schemas.location_lat gym_update);
           Gym.location_lng :=
             nullable (Gym.location_lng db_gym)
               (schemas.location_lng gym_update);
           Gym.created_at := Gym.created_at db_gym |} in
      write_gym db_gym';;
      (* db.refresh(db_gym) *)
      rows ← query gyms;
      match first (filter (λ g, Gym.id g = Gym.id db_gym') rows) with
      | Some db_gym => mret (Some db_gym)
      | None => throw (DBAPIError "could not refresh instance")
      end
  end.

Definition list_gyms (max_fee : option Z) (trial : option bool)
    (location : option string) : M (list Gym.t) :=
  let query : list condition := [] in
  query ←
    (if bool_decide (default 0 max_fee ≠ 0) then
       col ← Gym_getattr "subscription_fee";
       mret (query ++ [sql_le col (inject_Z (default 0 max_fee))])
     else mret query);
  query ←
    match trial with
    | Some trial =>
        col ← Gym_getattr "trial_available";
        mret (query ++ [sql_eq_bool col trial])
    | None => mret query
    end;
  query ←
    (if str_truthy location then
       col ← Gym_getattr "address";
       mret (query ++ [ilike col ("%" +:+ default "" location +:+ "%")])
     else mret query);
  all query.

Definition update_trial_status (trial_id : Z) (status : string)
    : M (option TrialBooking.t) :=
  rows ← query trial_bookings;
  match first (filter (λ b, TrialBooking.id b = trial_id) rows) with
  | None => mret None
  | Some db_trial =>
      db_trial ← assign_status_commit_refresh db_trial status;
      mret (Some db_trial)
  end.

(** ** The other functions of [crud.py] *)

Definition get_user_by_email (email : string) : M (option User.t) :=
  rows ← query users;
  mret (first (filter (λ u, User.email u = email) rows)).

Definition get_user (user_id : Z) : M (option User.t) :=
  rows ← query users;
  mret (first (filter (λ u, User.id u = user_id) rows)).

Definition create_user (user : schemas.UserCreate.t) (hashed_password : string)
    (nextval : Z) : M User.t :=
  insert_user
    {| User.id := nextval;
       User.name := schemas.UserCreate.name user;
       User.email := schemas.UserCreate.email user;
       User.hashed_password := hashed_password;
       User.role := schemas.UserCreate.role user |}.

(** On insert the ORM leaves out an attribute that is [None], so the column's
    default applies: [trial_available] falls back to [False], and
    [created_at], never passed, is the time of the call. *)
Definition create_gym (gym : schemas.GymCreate.t) (owner_id : Z)
    (nextval : Z) (utcnow : datetime) : M Gym.t :=
  insert_gym
    {| Gym.id := nextval;
       Gym.owner_id := owner_id;
       Gym.name := schemas.GymCreate.name gym;
       Gym.address := schemas.GymCreate.address gym;
       Gym.subscription_fee := schemas.GymCreate.subscription_fee gym;
       Gym.trial_available :=
         Some (default false (schemas.GymCreate.trial_available gym));
       Gym.description := schemas.GymCreate.description gym;
       Gym.location_lat := schemas.GymCreate.location_lat gym;
       Gym.location_lng := schemas.GymCreate.location_lng gym;
       Gym.created_at := Some utcnow |}.



(** [models.TrialBooking(user_id=user_id, gym_id=gym_id)], added and
    committed: the status is the column's default. *)
Definition create_trial_request (user_id gym_id : Z) (utcnow : datetime)
    : M TrialBooking.t :=
  db_trial ←
    TrialBooking_new [("user_id", PInt user_id); ("gym_id", PInt gym_id)];
  nextval ← trial_bookings_nextval;
  unique trial_bookings TrialBooking.id "trial_bookings_pkey" nextval;;
  foreign_key users User.id "trial_bookings_user_id_fkey" user_id;;
  foreign_key gyms Gym.id "trial_bookings_gym_id_fkey" gym_id;;
  add_commit_refresh db_trial utcnow.

Definition list_trial_requests_for_gym (gym_id : Z)
    : M (list TrialBooking.t) :=
  rows ← query trial_bookings;
  mret (filter (λ b, TrialBooking.gym_id b = gym_id) rows).

End crud.

(** * app/routes/trials.py *)

Module routes_trials.

Definition book_trial (trial : schemas.TrialBookingCreate)
    (current_user : User.t) (utcnow : datetime) : M TrialBooking.t :=
  (* Check if gym exists *)
  gym ← crud.get_gym (schemas.gym_id trial);
  if negb (truthy gym) then raise 404 "Gym not found"
  else
    (* Prevent multiple active trial bookings for the same gym *)
    rows ← query trial_bookings;
    let existing_trial :=
      first (filter (λ b,
               TrialBooking.gym_id b = schemas.gym_id trial ∧
               TrialBooking.user_id b = User.id current_user ∧
               TrialStatus_name (TrialBooking.status b) = "pending") rows) in
    if truthy existing_trial then
      raise 400 "You already have a pending trial booking for this gym"
    else
      (* Create trial booking *)
      scheduled_at ← schemas.TrialBookingCreate_getattr trial "scheduled_at";
      trial_booking ←
        TrialBooking_new
          [("user_id", PInt (User.id current_user));
           ("gym_id", PInt (schemas.gym_id trial));
           ("scheduled_at", scheduled_at);
           ("status", PStr "pending")];
      add_commit_refresh trial_booking utcnow.

Definition allowed_statuses : list TrialStatus :=
  [pending; accepted; rejected].

(** [trial.gym.owner_id]: the relationship loads the gym the booking refers
    to. *)
Definition gym_owner_id (trial : TrialBooking.t) : M Z :=
  gym ← crud.get_gym (TrialBooking.gym_id trial);
  match gym with
  | Some gym => mret (Gym.owner_id gym)
  | None => throw (AttributeError "NoneType" "owner_id")
  end.

Definition update_trial_status (trial_id : Z)
    (request : schemas.TrialStatusUpdate) (current_user : User.t)
    : M TrialBooking.t :=
  (* Get trial booking *)
  rows ← query trial_bookings;
  match first (filter (λ b, TrialBooking.id b = trial_id) rows) with
  | None => raise 404 "Trial booking not found"
  | Some trial =>
      (* Only gym owner or admin can update status *)
      owner_id ← gym_owner_id trial;
      if bool_decide (owner_id ≠ User.id current_user) &&
         py_ne (PUserRole (User.role current_user)) (PStr "admin")
      then raise 403 "Not authorized to update this trial booking"
      else if negb (py_in (PStr (schemas.status_update request))
                      (PTrialStatus <$> allowed_statuses))
      then λ db, (HTTPException 400 (StatusMustBeOneOf allowed_statuses), db)
      else assign_status_commit_refresh trial (schemas.status_update request)
  end.

End routes_trials.

(** * app/routes/gyms.py *)

Module routes_gyms.

Definition update_gym (gym_id : Z) (gym_update : schemas.GymUpdate)
    (current_user : User.t) : M (option Gym.t) :=
  gym ← crud.get_gym gym_id;
  match gym with
  | None => raise 404 "Gym not found"
  | Some gym =>
      (* only owner or admin can update *)
      if negb (py_in (PUserRole (User.role current_user))
                 [PUserRole gym_owner; PUserRole admin]) ||
         bool_decide (Gym.owner_id gym ≠ User.id current_user)
      then raise 403 "Not authorized to update this gym"
      else crud.update_gym gym_id gym_update
  end.

Definition delete_gym (gym_id : Z) (current_user : User.t) : M string :=
  gym ← crud.get_gym gym_id;
  match gym with
  | None => raise 404 "Gym not found"
  | Some gym =>
      if negb (py_in (PUserRole (User.role current_user))
                 [PUserRole gym_owner; PUserRole admin]) ||
         bool_decide (Gym.owner_id gym ≠ User.id current_user)
      then raise 403 "Not authorized to delete this gym"
      else
        (* crud.delete_gym(db, gym_id) *)
        module_getattr "app.crud" crud.names "delete_gym";;
        mret "Gym deleted successfully"
  end.

Definition list_gyms (skip limit : Z) (location : option string)
    (min_price max_price : option float) (has_trial : option bool)
    : M (list Gym.t) :=
  crud.get_gyms skip limit location min_price max_price has_trial.

Definition create_gym (gym : schemas.GymCreate.t) (current_user : User.t)
    (nextval : Z) (utcnow : datetime) : M Gym.t :=
  if negb (py_in (PUserRole (User.role current_user))
             [PUserRole gym_owner; PUserRole admin])
  then raise 403 "Not authorized to create gyms"
  else crud.create_gym gym (User.id current_user) nextval utcnow.

Definition get_gym (gym_id : Z) : M Gym.t :=
  gym ← crud.get_gym gym_id;
  match gym with
  | None => raise 404 "Gym not found"
  | Some gym => mret gym
  end.

End routes_gyms.

(** * app/utils.py *)

Module utils.

(** What [jwt.decode(token, SECRET_KEY, algorithms=[ALGORITHM])] gives at a
    time: [JWTError] (a token that is malformed, wrongly signed or expired),
    or the payload, of which the handler reads [sub].  The library and the
    key are the argument [jwt_decode]. *)
Inductive decoded := JWTError | Payload (sub : option string).

(** [timedelta(minutes=n)], datetimes counting seconds. *)
Definition minutes (n : Z) : Z := 60 * n.

(** [create_access_token(data={"sub": sub}, expires_delta)].  [jwt.encode] with
    the key is the argument [jwt_encode], of the subject and the expiry.  A
    zero [timedelta] is false, so [expires_delta or ...] replaces it by the
    default like a missing one. *)
Definition create_access_token (jwt_encode : string → datetime → string)
    (ACCESS_TOKEN_EXPIRE_MINUTES : Z) (sub : string) (expires_delta : option Z)
    (utcnow : datetime) : string :=
  let delta :=
    match expires_delta with
    | Some d => if bool_decide (d = 0) then minutes ACCESS_TOKEN_EXPIRE_MINUTES
                else d
    | None => minutes ACCESS_TOKEN_EXPIRE_MINUTES
    end in
  let expire := utcnow + delta in
  jwt_encode sub expire.

(** [credentials_exc]; its [headers] are not kept. *)
Definition credentials_exc {A} : M A :=
  raise 401 "Could not validate credentials".

Definition get_current_user (jwt_decode : string → datetime → decoded)
    (token : string) (utcnow : datetime) : M User.t :=
  match jwt_decode token utcnow with
  | JWTError => credentials_exc
  | Payload None => credentials_exc
  | Payload (Some email) =>
      user ← crud.get_user_by_email email;
      match user with
      | None => credentials_exc
      | Some user => mret user
      end
  end.

Definition ensure_role_owner (user : User.t) : M unit :=
  let role := User.role user in
  owner ←
    match UserRole_member "owner" with
    | Some owner => mret owner
    | None => throw (AttributeError "UserRole" "owner")
    end;
  if py_ne (PUserRole role) (PUserRole owner)
  then raise 403 "Only gym owners can perform this action"
  else mret ().

Definition ensure_gym_ownership (gym : Gym.t) (user : User.t) : M unit :=
  if bool_decide (Gym.owner_id gym ≠ User.id user)
  then raise 403 "Not authorized for this gym"
  else mret ().

Definition ensure_owner_and_ownership (gym : Gym.t) (user : User.t) : M unit :=
  ensure_role_owner user;;
  ensure_gym_ownership gym user.

End utils.

(** * app/routes/users.py *)

Module routes_users.

(** [get_password_hash] is the argument of that name: passlib's hash of the
    password at this call. *)
Definition register_user (get_password_hash : string → string)
    (user : schemas.UserCreate.t) (nextval : Z) : M User.t :=
  db_user ← crud.get_user_by_email (schemas.UserCreate.email user);
  if truthy db_user then raise 400 "Email already registered"
  else
    let hashed_password :=
      get_password_hash (schemas.UserCreate.password user) in
    crud.create_user user hashed_password nextval.

(** [verify_password] and [jwt.encode] are arguments; [form_data] is its
    [username] and [password]. *)
Definition login (verify_password : string → string → bool)
    (jwt_encode : string → datetime → string)
    (ACCESS_TOKEN_EXPIRE_MINUTES : Z)
    (username password : string) (utcnow : datetime) : M schemas.Token :=
  user ← crud.get_user_by_email username;
  match user with
  | None => raise 401 "Invalid email or password"
  | Some user =>
      if negb (verify_password password (User.hashed_password user))
      then raise 401 "Invalid email or password"
      else
        let access_token_expires := utils.minutes 60 in
        let access_token :=
          utils.create_access_token jwt_encode ACCESS_TOKEN_EXPIRE_MINUTES
            (User.email user) (Some access_token_expires) utcnow in
        mret {| schemas.access_token := access_token;
                schemas.token_type := "bearer" |}
  end.

Definition read_users_me (current_user : User.t) : M User.t :=
  mret current_user.

End routes_users.

(** * The vocabulary of the statements *)

(** The gym with that id, as [crud.get_gym] finds it. *)
Definition find_gym (db : Db) (gym_id : Z) : option Gym.t :=
  first (filter (λ g, Gym.id g = gym_id) (gyms db)).

(** The booking with that id, as [update_trial_status] finds it. *)
Definition find_trial (db : Db) (trial_id : Z) : option TrialBooking.t :=
  first (filter (λ b, TrialBooking.id b = trial_id) (trial_bookings db)).

Definition gym_exists (db : Db) (gym_id : Z) : Prop :=
  ∃ g, g ∈ gyms db ∧ Gym.id g = gym_id.

(** The user has a booking for the gym whose status is [pending]. *)
Definition has_pending (db : Db) (user_id gym_id : Z) : Prop :=
  ∃ b, b ∈ trial_bookings db ∧
       TrialBooking.user_id b = user_id ∧
       TrialBooking.gym_id b = gym_id ∧
       TrialBooking.status b = pending.

(** The terminal states of a booking. *)
Definition terminal (s : TrialStatus) : Prop := s = accepted ∨ s = rejected.

(** The status values the spec admits, as request strings. *)
Definition valid_status_strings : list string :=
  ["pending"; "accepted"; "rejected"].

(** The table [trial_bookings] after [write_status id s]. *)
Definition with_status_at (id : Z) (s : TrialStatus)
    (rows : list TrialBooking.t) : list TrialBooking.t :=
  (λ b, if bool_decide (TrialBooking.id b = id)
        then TrialBooking.with_status b s else b) <$> rows.

(** The user with that email, as [crud.get_user_by_email] finds it. *)
Definition find_user_by_email (db : Db) (email : string) : option User.t :=
  first (filter (λ u, User.email u = email) (users db)).

(** No two users have the same email. *)
Definition unique_emails (db : Db) : Prop := NoDup (User.email <$> users db).

(** No two gyms have the same id. *)
Definition unique_gym_ids (db : Db) : Prop := NoDup (Gym.id <$> gyms db).

(** A user has at most one pending booking for a gym: two pending bookings
    of one user for one gym are the same row. *)
Definition at_most_one_pending (db : Db) : Prop :=
  ∀ i j b b',
    trial_bookings db !! i = Some b → trial_bookings db !! j = Some b' →
    TrialBooking.user_id b = TrialBooking.user_id b' →
    TrialBooking.gym_id b = TrialBooking.gym_id b' →
    TrialBooking.status b = pending → TrialBooking.status b' = pending →
    i = j.

(** Every booking's id was handed out by the sequence already. *)
Definition ids_below_seq (db : Db) : Prop :=
  ∀ b, b ∈ trial_bookings db → TrialBooking.id b < trial_bookings_id_seq db.

(** The table [gyms] after [write_gym g']. *)
Definition with_gym (g' : Gym.t) (rows : list Gym.t) : list Gym.t :=
  (λ g, if bool_decide (Gym.id g = Gym.id g') then g' else g) <$> rows.

Definition set_or {A} (old : A) (set : option (option A)) : A :=
  match set with Some (Some v) => v | _ => old end.

(** The update sets [subscription_fee] to a value that is no 32-bit
    integer. *)
Definition fee_out_of_range (u : schemas.GymUpdate) : Prop :=
  ∃ fee, schemas.subscription_fee u = Some (Some fee) ∧ ¬ int4 fee.

#[global] Instance fee_out_of_range_dec u : Decision (fee_out_of_range u).
Proof.
  unfold fee_out_of_range.
  destruct (schemas.subscription_fee u) as [[fee|]|].
  - destruct (decide (int4 fee)) as [Hin|Hout].
    + right. intros (f & [= <-] & Hf). by apply Hf.
    + left. by exists fee.
  - right. by intros (f & [=] & _).
  - right. by intros (f & [=] & _).
Defined.

(** The update sets [name], [address] or [subscription_fee] to null. *)
Definition sets_null (u : schemas.GymUpdate) : Prop :=
  schemas.name u = Some None ∨
  schemas.address u = Some None ∨
  schemas.subscription_fee u = Some None.

(** A gym with the fields of an update that are set, the others kept; none
    when the update sets [subscription_fee] out of range, or [name],
    [address] or [subscription_fee] to null. *)
Definition patch (g : Gym.t) (u : schemas.GymUpdate) : option Gym.t :=
  if bool_decide (fee_out_of_range u ∨ sets_null u)
  then None
  else
    Some {| Gym.id := Gym.id g;
            Gym.owner_id := Gym.owner_id g;
            Gym.name := set_or (Gym.name g) (schemas.name u);
            Gym.address := set_or (Gym.address g) (schemas.address u);
            Gym.subscription_fee :=
              set_or (Gym.subscription_fee g) (schemas.subscription_fee u);
            Gym.trial_available :=
              crud.nullable (Gym.trial_available g)
                (schemas.trial_available u);
            Gym.description :=
              crud.nullable (Gym.description g) (schemas.description u);
            Gym.location_lat :=
              crud.nullable (Gym.location_lat g) (schemas.location_lat u);
            Gym.location_lng :=
              crud.nullable (Gym.location_lng g) (schemas.location_lng u);
            Gym.created_at := Gym.created_at g |}.

(** The caller may change or delete the gym, as both handlers test it. *)
Definition may_mutate (current_user : User.t) (gym : Gym.t) : Prop :=
  (User.role current_user = gym_owner ∨ User.role current_user = admin) ∧
  Gym.owner_id gym = User.id current_user.

(** ** Sample data *)

Module sample.

Definition alice : User.t :=
  User.mk 1 "Alice" "alice@example.com" "$2b$12$a" seeker.
Definition olga : User.t :=
  User.mk 2 "Olga" "olga@example.com" "$2b$12$o" gym_owner.
Definition adam : User.t :=
  User.mk 3 "Adam" "adam@example.com" "$2b$12$d" admin.

(** Olga's gym. *)
Definition iron : Gym.t :=
  Gym.mk 1 2 "Iron Temple" "1 Main Street" 70 (Some true) None None None
    (Some 1000).

Definition accepted_booking : TrialBooking.t :=
  TrialBooking.mk 1 1 1 accepted (Some 2000).
Definition pending_booking : TrialBooking.t :=
  TrialBooking.mk 2 1 1 pending (Some 2001).

Definition people : list User.t := [alice; olga; adam].

(** Alice has no booking. *)
Definition db_empty : Db := mkDb people [iron] [] [] 1.
(** Alice's booking for the gym was accepted. *)
Definition db_accepted : Db := mkDb people [iron] [] [accepted_booking] 2.
(** Alice has an accepted and a pending booking for the gym. *)
Definition db_pending : Db :=
  mkDb people [iron] [] [accepted_booking; pending_booking] 3.

(** Stand-ins for passlib and jose in the examples. *)
Definition get_password_hash (password : string) : string :=
  "$2b$12$" +:+ password.
Definition verify_password (password hashed : string) : bool :=
  String.eqb hashed ("$2b$12$" +:+ password).
Definition jwt_encode (sub : string) (exp : datetime) : string := sub.
Definition jwt_decode (token : string) (utcnow : datetime) : utils.decoded :=
  utils.Payload (Some token).

(** Bob asks to be registered as an admin. *)
Definition bob_request : schemas.UserCreate.t :=
  schemas.UserCreate.mk "Bob" "bob@example.com" "hunter2" admin.

End sample.

(** * Lemmas on the queries *)

Ltac run :=
  unfold mbind, M_bind, mret, M_ret, query, raise, throw; simpl.

Tactic Notation "run" "in" hyp(H) :=
  unfold mbind, M_bind, mret, M_ret, query, raise, throw in H; simpl in H.

Section first_filter.
Context {A : Type} (P : A → Prop) `{!∀ x, Decision (P x)}.

Lemma first_filter_Some l x :
  first (filter P l) = Some x → x ∈ l ∧ P x.
Proof.
  unfold first. intros Hx%head_Some_elem_of.
  apply list_elem_of_filter in Hx. tauto.
Qed.

Lemma first_filter_None l :
  first (filter P l) = None ↔ ∀ x, x ∈ l → ¬ P x.
Proof.
  unfold first. rewrite head_None. split.
  - intros Hnil x Hx HP. eapply filter_nil_not_elem_of; eauto.
  - intros Hall. induction l as [|y l IH]; [done|].
    rewrite filter_cons. destruct (decide (P y)) as [HP|HP].
    + exfalso. apply (Hall y); [left|done].
    + apply IH. intros x Hx. apply Hall. by right.
Qed.

Lemma truthy_first_filter l :
  truthy (first (filter P l)) = true ↔ ∃ x, x ∈ l ∧ P x.
Proof.
  split.
  - destruct (first (filter P l)) as [x|] eqn:E; [|done].
    intros _. exists x. by apply first_filter_Some.
  - intros (x & Hx & HP).
    destruct (first (filter P l)) as [y|] eqn:E; [done|].
    exfalso. rewrite first_filter_None in E. by apply (E x).
Qed.

Lemma first_filter_fmap (f : A → A) l :
  (∀ x, P (f x) ↔ P x) →
  first (filter P (f <$> l)) = f <$> first (filter P l).
Proof.
  intros Hf. induction l as [|y l IH]; [done|].
  rewrite fmap_cons, !filter_cons.
  destruct (decide (P (f y))) as [H1|H1], (decide (P y)) as [H2|H2];
    try done.
  - exfalso. by apply H2, Hf.
  - exfalso. by apply H1, Hf.
Qed.

End first_filter.

Lemma TrialStatus_name_pending s : TrialStatus_name s = "pending" ↔ s = pending.
Proof. by destruct s. Qed.

Lemma gym_exists_find db gym_id :
  gym_exists db gym_id ↔ truthy (find_gym db gym_id) = true.
Proof.
  unfold find_gym. rewrite truthy_first_filter. reflexivity.
Qed.

(** A role is a member of a plain enumeration: it never equals a string. *)
Lemma role_ne_str r s : py_ne (PUserRole r) (PStr s) = true.
Proof. reflexivity. Qed.

Lemma role_in_gym_owner_admin r :
  py_in (PUserRole r) [PUserRole gym_owner; PUserRole admin] = true ↔
  r = gym_owner ∨ r = admin.
Proof. destruct r; cbn; split; (done || (intros [?|?]; done) || auto). Qed.

(** The status check of [update_trial_status] and the binding of the column
    accept the same strings. *)
Lemma allowed_iff_valid s :
  py_in (PStr s) (PTrialStatus <$> routes_trials.allowed_statuses) = true ↔
  s ∈ valid_status_strings.
Proof.
  unfold valid_status_strings, py_in, routes_trials.allowed_statuses.
  cbn [fmap list_fmap existsb py_eq TrialStatus_value].
  rewrite !elem_of_cons, elem_of_nil.
  destruct (String.eqb_spec s "pending"), (String.eqb_spec s "accepted"),
    (String.eqb_spec s "rejected"); simpl; intuition congruence.
Qed.

Lemma valid_iff_name s :
  s ∈ valid_status_strings ↔ ∃ st, TrialStatus_of_name s = Some st.
Proof.
  unfold valid_status_strings, TrialStatus_of_name.
  rewrite !elem_of_cons, elem_of_nil. split.
  - intros [->|[->|[->|[]]]]; simpl; eauto.
  - intros [st H].
    destruct (String.eqb_spec s "pending"); [tauto|].
    destruct (String.eqb_spec s "accepted"); [tauto|].
    destruct (String.eqb_spec s "rejected"); [tauto|done].
Qed.

(** * Booking a trial: [routes_trials.book_trial] *)

Lemma no_pending_first db user_id gym_id :
  ¬ has_pending db user_id gym_id →
  first (filter (λ b,
           TrialBooking.gym_id b = gym_id ∧
           TrialBooking.user_id b = user_id ∧
           TrialStatus_name (TrialBooking.status b) = "pending")
         (trial_bookings db)) = None.
Proof.
  intros Hno. apply first_filter_None. intros b Hb (Hg & Hu & Hs).
  apply Hno. exists b. by rewrite TrialStatus_name_pending in Hs.
Qed.

Lemma pending_first db user_id gym_id :
  has_pending db user_id gym_id →
  truthy (first (filter (λ b,
           TrialBooking.gym_id b = gym_id ∧
           TrialBooking.user_id b = user_id ∧
           TrialStatus_name (TrialBooking.status b) = "pending")
         (trial_bookings db))) = true.
Proof.
  intros (b & Hb & Hu & Hg & Hs). apply truthy_first_filter.
  exists b. by rewrite TrialStatus_name_pending.
Qed.

(** C1.  The claim is that booking a trial for an existing gym, by a user who
    has no pending booking for it, succeeds and stores one new pending row.
    The handler does not: on every such input it reads [trial.scheduled_at],
    a field [TrialBookingCreate] does not declare, so the read raises
    [AttributeError], nothing is returned and the database is as it was. *)
Theorem book_trial_reads_undeclared_field db trial current_user utcnow :
  gym_exists db (schemas.gym_id trial) →
  ¬ has_pending db (User.id current_user) (schemas.gym_id trial) →
  routes_trials.book_trial trial current_user utcnow db =
    (Unhandled (AttributeError "TrialBookingCreate" "scheduled_at"), db).
Proof.
  intros Hgym Hno. apply gym_exists_find in Hgym. unfold find_gym in Hgym.
  unfold routes_trials.book_trial, crud.get_gym. run.
  rewrite Hgym. simpl.
  by rewrite (no_pending_first _ _ _ Hno).
Qed.

Lemma book_trial_reads_undeclared_field_sample :
  routes_trials.book_trial {| schemas.gym_id := 1 |} sample.alice 3000
    sample.db_empty =
  (Unhandled (AttributeError "TrialBookingCreate" "scheduled_at"),
   sample.db_empty).
Proof.
  apply book_trial_reads_undeclared_field.
  - exists sample.iron. split; [by left|reflexivity].
  - intros (b & Hb & _). by apply elem_of_nil in Hb.
Defined.

(** C4, as the code has it.  When the gym exists and the requester already
    has a pending booking for it, booking a trial raises the HTTP error 400
    with the detail "You already have a pending trial booking for this gym",
    and the database is as it was: no booking is created. *)
Theorem book_trial_duplicate_pending db trial current_user utcnow :
  gym_exists db (schemas.gym_id trial) →
  has_pending db (User.id current_user) (schemas.gym_id trial) →
  routes_trials.book_trial trial current_user utcnow db =
    (HTTPException 400
       (Text "You already have a pending trial booking for this gym"), db).
Proof.
  intros Hgym Hdup. apply gym_exists_find in Hgym. unfold find_gym in Hgym.
  unfold routes_trials.book_trial, crud.get_gym. run.
  rewrite Hgym. simpl.
  by rewrite (pending_first _ _ _ Hdup).
Qed.

Lemma book_trial_duplicate_pending_sample :
  routes_trials.book_trial {| schemas.gym_id := 1 |} sample.alice 3000
    sample.db_pending =
  (HTTPException 400
     (Text "You already have a pending trial booking for this gym"),
   sample.db_pending).
Proof.
  apply book_trial_duplicate_pending.
  - exists sample.iron. split; [by left|reflexivity].
  - exists sample.pending_booking. split; [|done]. right. by left.
Defined.

(** C4, as the claim states it, fails: Alice has a pending booking for the
    gym, and her second request is answered with the status 400, not with
    409. *)
Lemma book_trial_duplicate_is_not_409 :
  gym_exists sample.db_pending 1 ∧
  has_pending sample.db_pending (User.id sample.alice) 1 ∧
  ¬ ∃ detail,
      (routes_trials.book_trial {| schemas.gym_id := 1 |} sample.alice 3000
         sample.db_pending).1 = HTTPException 409 detail.
Proof.
  split; [|split].
  - exists sample.iron. split; [by left|reflexivity].
  - exists sample.pending_booking. split; [|done]. right. by left.
  - intros [detail H]. vm_compute in H. discriminate H.
Qed.


(** * Updating the status of a booking: [routes_trials.update_trial_status] *)

Lemma find_trial_id db trial_id trial :
  find_trial db trial_id = Some trial → TrialBooking.id trial = trial_id.
Proof. intros H. by apply first_filter_Some in H as [_ ?]. Qed.

Lemma find_trial_with_status_at db id s i :
  find_trial (set_trial_bookings db (with_status_at id s (trial_bookings db))) i
  = (λ b, if bool_decide (TrialBooking.id b = id)
          then TrialBooking.with_status b s else b) <$> find_trial db i.
Proof.
  unfold find_trial, with_status_at. simpl.
  apply (first_filter_fmap (λ b, TrialBooking.id b = i)).
  intros b. by destruct (bool_decide (TrialBooking.id b = id)).
Qed.

(** Assigning a status that names a member, committing and refreshing: the
    rows with the booking's id get the status, and the booking is returned
    with it. *)
Lemma assign_status_commit_refresh_run db trial s st :
  find_trial db (TrialBooking.id trial) = Some trial →
  TrialStatus_of_name s = Some st →
  assign_status_commit_refresh trial s db =
    (Return (TrialBooking.with_status trial st),
     set_trial_bookings db
       (with_status_at (TrialBooking.id trial) st (trial_bookings db))).
Proof.
  intros Hfind Hname. unfold assign_status_commit_refresh.
  rewrite Hname. unfold write_status. run.
  pose proof (find_trial_with_status_at db (TrialBooking.id trial) st
                (TrialBooking.id trial)) as H.
  unfold find_trial, with_status_at in H. simpl in H. rewrite H.
  unfold find_trial in Hfind. rewrite Hfind. simpl.
  by rewrite bool_decide_eq_true_2.
Qed.

(** The handler once the booking and its gym are found. *)
Lemma update_trial_status_found db trial_id request current_user trial gym :
  find_trial db trial_id = Some trial →
  find_gym db (TrialBooking.gym_id trial) = Some gym →
  routes_trials.update_trial_status trial_id request current_user db =
    if bool_decide (Gym.owner_id gym ≠ User.id current_user) then
      (HTTPException 403 (Text "Not authorized to update this trial booking"),
       db)
    else if negb (py_in (PStr (schemas.status_update request))
                    (PTrialStatus <$> routes_trials.allowed_statuses)) then
      (HTTPException 400 (StatusMustBeOneOf routes_trials.allowed_statuses),
       db)
    else
      assign_status_commit_refresh trial (schemas.status_update request) db.
Proof.
  intros Htrial Hgym. unfold find_trial in Htrial. unfold find_gym in Hgym.
  unfold routes_trials.update_trial_status, routes_trials.gym_owner_id,
    crud.get_gym.
  run. rewrite Htrial. simpl. rewrite Hgym. simpl.
  rewrite role_ne_str, andb_true_r.
  destruct (bool_decide (Gym.owner_id gym ≠ User.id current_user)); [done|].
  by destruct (negb _).
Qed.

(** What a call that returns has done. *)
Lemma update_trial_status_Return db db' trial_id request current_user trial' :
  routes_trials.update_trial_status trial_id request current_user db =
    (Return trial', db') →
  ∃ trial st,
    find_trial db trial_id = Some trial ∧
    TrialStatus_of_name (schemas.status_update request) = Some st ∧
    trial' = TrialBooking.with_status trial st ∧
    db' = set_trial_bookings db
            (with_status_at trial_id st (trial_bookings db)).
Proof.
  intros Hrun.
  destruct (find_trial db trial_id) as [trial|] eqn:Htrial; cycle 1.
  { unfold find_trial in Htrial.
    unfold routes_trials.update_trial_status in Hrun. run in Hrun.
    by rewrite Htrial in Hrun. }
  destruct (find_gym db (TrialBooking.gym_id trial)) as [gym|] eqn:Hgym;
    cycle 1.
  { unfold find_trial in Htrial. unfold find_gym in Hgym.
    unfold routes_trials.update_trial_status, routes_trials.gym_owner_id,
      crud.get_gym in Hrun.
    run in Hrun. rewrite Htrial in Hrun. simpl in Hrun.
    by rewrite Hgym in Hrun. }
  rewrite (update_trial_status_found _ _ _ _ _ _ Htrial Hgym) in Hrun.
  destruct (bool_decide _); [done|].
  destruct (negb _); [done|].
  pose proof (find_trial_id _ _ _ Htrial) as Hid.
  destruct (TrialStatus_of_name (schemas.status_update request)) as [st|]
    eqn:Hname.
  - rewrite (assign_status_commit_refresh_run db trial _ st) in Hrun;
      [|by rewrite Hid|done].
    injection Hrun as <- <-. exists trial, st. by rewrite Hid.
  - unfold assign_status_commit_refresh in Hrun. by rewrite Hname in Hrun.
Qed.

Lemma TrialStatus_of_name_value s st :
  TrialStatus_of_name s = Some st → TrialStatus_value st = s.
Proof.
  unfold TrialStatus_of_name.
  destruct (String.eqb_spec s "pending") as [->|_]; [by intros [= <-]|].
  destruct (String.eqb_spec s "accepted") as [->|_]; [by intros [= <-]|].
  destruct (String.eqb_spec s "rejected") as [->|_]; [by intros [= <-]|done].
Qed.

(** C3.  The claim is that an admin may update the status of any booking.
    The handler compares the caller's role, a member of [UserRole], with the
    string "admin", and the two are never equal: an admin who does not own the
    booking's gym is refused with 403 like anyone else, and nothing is
    written. *)
Theorem update_trial_status_refuses_admin db trial_id request current_user
    trial gym :
  find_trial db trial_id = Some trial →
  find_gym db (TrialBooking.gym_id trial) = Some gym →
  User.role current_user = admin →
  Gym.owner_id gym ≠ User.id current_user →
  routes_trials.update_trial_status trial_id request current_user db =
    (HTTPException 403 (Text "Not authorized to update this trial booking"),
     db).
Proof.
  intros Htrial Hgym _ Howner.
  rewrite (update_trial_status_found _ _ _ _ _ _ Htrial Hgym).
  by rewrite bool_decide_eq_true_2.
Qed.

Lemma update_trial_status_refuses_admin_sample :
  routes_trials.update_trial_status 1 {| schemas.status_update := "accepted" |}
    sample.adam sample.db_pending =
  (HTTPException 403 (Text "Not authorized to update this trial booking"),
   sample.db_pending).
Proof.
  apply (update_trial_status_refuses_admin sample.db_pending 1 _ sample.adam
           sample.accepted_booking sample.iron);
    [reflexivity|reflexivity|reflexivity|by vm_compute].
Defined.

(** C5, as the code has it.  For a booking in a terminal state, a call by the
    owner of the booking's gym with a status among pending, accepted and
    rejected returns the booking with that status and stores it: the status
    of the booking is then the requested one. *)
Theorem update_trial_status_from_terminal db trial_id request current_user
    trial gym :
  find_trial db trial_id = Some trial →
  terminal (TrialBooking.status trial) →
  find_gym db (TrialBooking.gym_id trial) = Some gym →
  Gym.owner_id gym = User.id current_user →
  schemas.status_update request ∈ valid_status_strings →
  ∃ st db',
    TrialStatus_value st = schemas.status_update request ∧
    routes_trials.update_trial_status trial_id request current_user db =
      (Return (TrialBooking.with_status trial st), db') ∧
    find_trial db' trial_id = Some (TrialBooking.with_status trial st).
Proof.
  intros Htrial _ Hgym Howner Hvalid.
  pose proof Hvalid as [st Hname]%valid_iff_name.
  pose proof (find_trial_id _ _ _ Htrial) as Hid.
  exists st, (set_trial_bookings db
                (with_status_at trial_id st (trial_bookings db))).
  split; [by apply TrialStatus_of_name_value|].
  rewrite (update_trial_status_found _ _ _ _ _ _ Htrial Hgym).
  rewrite bool_decide_eq_false_2 by (intros H; by apply H).
  apply allowed_iff_valid in Hvalid. rewrite Hvalid. simpl.
  rewrite (assign_status_commit_refresh_run db trial _ st);
    [|by rewrite Hid|done].
  rewrite Hid. split; [done|].
  rewrite find_trial_with_status_at, Htrial. simpl.
  by rewrite bool_decide_eq_true_2.
Qed.

Lemma update_trial_status_from_terminal_sample :
  ∃ st db',
    TrialStatus_value st = "pending" ∧
    routes_trials.update_trial_status 1
      {| schemas.status_update := "pending" |} sample.olga sample.db_accepted =
      (Return (TrialBooking.with_status sample.accepted_booking st), db') ∧
    find_trial db' 1 =
      Some (TrialBooking.with_status sample.accepted_booking st).
Proof.
  apply (update_trial_status_from_terminal sample.db_accepted 1
           {| schemas.status_update := "pending" |} sample.olga
           sample.accepted_booking sample.iron).
  - reflexivity.
  - by left.
  - reflexivity.
  - reflexivity.
  - by left.
Defined.

(** C5, as the claim states it, fails: Alice's booking is accepted, the
    gym's owner asks for rejected, and the call returns the booking and
    stores it as rejected. *)
Lemma accepted_booking_becomes_rejected :
  find_trial sample.db_accepted 1 = Some sample.accepted_booking ∧
  terminal (TrialBooking.status sample.accepted_booking) ∧
  ∃ trial' db',
    routes_trials.update_trial_status 1
      {| schemas.status_update := "rejected" |} sample.olga sample.db_accepted =
      (Return trial', db') ∧
    TrialBooking.status <$> find_trial db' 1 = Some rejected.
Proof.
  split; [reflexivity|]. split; [by left|].
  eexists _, _. split; [by vm_compute|]. reflexivity.
Qed.

(** C6.  For a booking that exists and a caller the handler lets through
    (the owner of the booking's gym), a requested status outside pending,
    accepted and rejected is refused with 400 and the database is as it was;
    a requested status among the three passes the check, and the call returns
    a booking. *)
Theorem update_trial_status_checks_status db trial_id request current_user
    trial gym :
  find_trial db trial_id = Some trial →
  find_gym db (TrialBooking.gym_id trial) = Some gym →
  Gym.owner_id gym = User.id current_user →
  (schemas.status_update request ∉ valid_status_strings →
   routes_trials.update_trial_status trial_id request current_user db =
     (HTTPException 400 (StatusMustBeOneOf [pending; accepted; rejected]),
      db)) ∧
  (schemas.status_update request ∈ valid_status_strings →
   ∃ trial' db',
     routes_trials.update_trial_status trial_id request current_user db =
       (Return trial', db')).
Proof.
  intros Htrial Hgym Howner.
  rewrite (update_trial_status_found _ _ _ _ _ _ Htrial Hgym).
  rewrite bool_decide_eq_false_2 by (intros H; by apply H).
  split; intros Hs.
  - rewrite <- allowed_iff_valid in Hs.
    by destruct (py_in _ _).
  - pose proof Hs as [st Hname]%valid_iff_name.
    apply allowed_iff_valid in Hs. rewrite Hs. simpl.
    rewrite (assign_status_commit_refresh_run db trial _ st); eauto.
    by rewrite (find_trial_id _ _ _ Htrial).
Qed.

Lemma update_trial_status_checks_status_sample :
  routes_trials.update_trial_status 2 {| schemas.status_update := "approved" |}
    sample.olga sample.db_pending =
  (HTTPException 400 (StatusMustBeOneOf [pending; accepted; rejected]),
   sample.db_pending).
Proof.
  refine (proj1 (update_trial_status_checks_status sample.db_pending 2
                   {| schemas.status_update := "approved" |} sample.olga
                   sample.pending_booking sample.iron _ _ _) _);
    [reflexivity|reflexivity|reflexivity|].
  unfold valid_status_strings. simpl.
  rewrite !not_elem_of_cons. repeat split; try done. apply not_elem_of_nil.
Defined.

(** C10.  A call that returns has changed nothing but statuses of rows with
    the requested id: users, gyms and trainers are as they were, the table of
    bookings has the same rows in the same places, each with its id, user_id,
    gym_id and created_at, and a row with another id is wholly as it was.  The
    booking returned is the one found, with at most its status changed. *)
Theorem update_trial_status_frame db db' trial_id request current_user trial' :
  routes_trials.update_trial_status trial_id request current_user db =
    (Return trial', db') →
  users db' = users db ∧
  gyms db' = gyms db ∧
  trainers db' = trainers db ∧
  trial_bookings_id_seq db' = trial_bookings_id_seq db ∧
  length (trial_bookings db') = length (trial_bookings db) ∧
  (∀ i b, trial_bookings db !! i = Some b →
     ∃ b', trial_bookings db' !! i = Some b' ∧
           TrialBooking.id b' = TrialBooking.id b ∧
           TrialBooking.user_id b' = TrialBooking.user_id b ∧
           TrialBooking.gym_id b' = TrialBooking.gym_id b ∧
           TrialBooking.created_at b' = TrialBooking.created_at b ∧
           (TrialBooking.id b ≠ trial_id → b' = b)) ∧
  (∃ trial, find_trial db trial_id = Some trial ∧
            find_trial db' trial_id = Some trial' ∧
            TrialBooking.id trial' = TrialBooking.id trial ∧
            TrialBooking.user_id trial' = TrialBooking.user_id trial ∧
            TrialBooking.gym_id trial' = TrialBooking.gym_id trial ∧
            TrialBooking.created_at trial' = TrialBooking.created_at trial).
Proof.
  intros (trial & st & Htrial & _ & -> & ->)%update_trial_status_Return.
  simpl. repeat split.
  - unfold with_status_at. by rewrite length_fmap.
  - intros i b Hb. unfold with_status_at.
    rewrite list_lookup_fmap, Hb. simpl.
    destruct (bool_decide_reflect (TrialBooking.id b = trial_id)) as [Heq|Hne].
    + eexists. repeat split. by intros.
    + eexists. by repeat split.
  - exists trial. split; [done|]. split; [|done].
    rewrite find_trial_with_status_at, Htrial. simpl.
    by rewrite bool_decide_eq_true_2 by by eapply find_trial_id.
Qed.

Lemma update_trial_status_frame_sample :
  users (routes_trials.update_trial_status 2
           {| schemas.status_update := "accepted" |} sample.olga
           sample.db_pending).2 = sample.people ∧
  trial_bookings (routes_trials.update_trial_status 2
                    {| schemas.status_update := "accepted" |} sample.olga
                    sample.db_pending).2 !! 0%nat =
    Some sample.accepted_booking.
Proof.
  destruct (routes_trials.update_trial_status 2
              {| schemas.status_update := "accepted" |} sample.olga
              sample.db_pending) as [o db'] eqn:Hrun.
  assert (∃ trial', o = Return trial') as [trial' ->].
  { vm_compute in Hrun. injection Hrun as <- _. by eexists. }
  destruct (update_trial_status_frame _ _ _ _ _ _ Hrun)
    as (Hu & _ & _ & _ & _ & Hrows & _).
  split; [done|].
  destruct (Hrows 0%nat sample.accepted_booking eq_refl)
    as (b' & Hb' & _ & _ & _ & _ & Hsame).
  simpl. rewrite Hb'. f_equal. by apply Hsame.
Defined.

(** * Changing and deleting a gym: [routes_gyms] *)

(** Both handlers once the gym is found: the same check. *)
Lemma update_gym_found db gym_id gym_update current_user gym :
  find_gym db gym_id = Some gym →
  routes_gyms.update_gym gym_id gym_update current_user db =
    if negb (py_in (PUserRole (User.role current_user))
               [PUserRole gym_owner; PUserRole admin]) ||
       bool_decide (Gym.owner_id gym ≠ User.id current_user)
    then (HTTPException 403 (Text "Not authorized to update this gym"), db)
    else crud.update_gym gym_id gym_update db.
Proof.
  intros Hgym. unfold find_gym in Hgym.
  unfold routes_gyms.update_gym, crud.get_gym. run. rewrite Hgym.
  by destruct (_ || _).
Qed.

Lemma delete_gym_found db gym_id current_user gym :
  find_gym db gym_id = Some gym →
  routes_gyms.delete_gym gym_id current_user db =
    if negb (py_in (PUserRole (User.role current_user))
               [PUserRole gym_owner; PUserRole admin]) ||
       bool_decide (Gym.owner_id gym ≠ User.id current_user)
    then (HTTPException 403 (Text "Not authorized to delete this gym"), db)
    else (Unhandled (AttributeError "app.crud" "delete_gym"), db).
Proof.
  intros Hgym. unfold find_gym in Hgym.
  unfold routes_gyms.delete_gym, crud.get_gym. run. rewrite Hgym.
  by destruct (_ || _).
Qed.

(** C2.  The claim is that an admin may update or delete any gym.  Both
    handlers refuse a caller whose id is not the gym's [owner_id] whatever the
    role: an admin who does not own the gym gets 403 from both, and nothing is
    written. *)
Theorem gym_mutation_refuses_admin db gym_id gym_update current_user gym :
  find_gym db gym_id = Some gym →
  User.role current_user = admin →
  Gym.owner_id gym ≠ User.id current_user →
  routes_gyms.update_gym gym_id gym_update current_user db =
    (HTTPException 403 (Text "Not authorized to update this gym"), db) ∧
  routes_gyms.delete_gym gym_id current_user db =
    (HTTPException 403 (Text "Not authorized to delete this gym"), db).
Proof.
  intros Hgym _ Howner.
  rewrite (update_gym_found _ _ _ _ _ Hgym), (delete_gym_found _ _ _ _ Hgym).
  rewrite (bool_decide_eq_true_2 _ Howner), orb_true_r. done.
Qed.

Lemma gym_mutation_refuses_admin_sample :
  routes_gyms.update_gym 1
    {| schemas.name := None; schemas.address := None;
       schemas.subscription_fee := Some (Some 80);
       schemas.trial_available := None; schemas.description := None;
       schemas.location_lat := None; schemas.location_lng := None |}
    sample.adam sample.db_empty =
    (HTTPException 403 (Text "Not authorized to update this gym"),
     sample.db_empty) ∧
  routes_gyms.delete_gym 1 sample.adam sample.db_empty =
    (HTTPException 403 (Text "Not authorized to delete this gym"),
     sample.db_empty).
Proof.
  apply (gym_mutation_refuses_admin sample.db_empty 1 _ sample.adam
           sample.iron); [reflexivity|reflexivity|by vm_compute].
Defined.

(** C8.  A caller who passes the check of [delete_gym] on an existing gym
    (role gym_owner or admin, and owner of the gym) never reaches the return:
    [crud] has no attribute [delete_gym], the lookup raises [AttributeError],
    and the database, the gym included, is as it was. *)
Theorem delete_gym_never_deletes db gym_id current_user gym :
  find_gym db gym_id = Some gym →
  User.role current_user = gym_owner ∨ User.role current_user = admin →
  Gym.owner_id gym = User.id current_user →
  routes_gyms.delete_gym gym_id current_user db =
    (Unhandled (AttributeError "app.crud" "delete_gym"), db).
Proof.
  intros Hgym Hrole%role_in_gym_owner_admin Howner.
  rewrite (delete_gym_found _ _ _ _ Hgym), Hrole.
  by rewrite bool_decide_eq_false_2 by (intros H; by apply H).
Qed.

Lemma delete_gym_never_deletes_sample :
  routes_gyms.delete_gym 1 sample.olga sample.db_pending =
    (Unhandled (AttributeError "app.crud" "delete_gym"), sample.db_pending).
Proof.
  apply (delete_gym_never_deletes sample.db_pending 1 sample.olga sample.iron);
    [reflexivity|by left|reflexivity].
Defined.

(** On no input at all does [delete_gym] return or change the database. *)
Lemma delete_gym_total_failure db gym_id current_user :
  (∀ msg, (routes_gyms.delete_gym gym_id current_user db).1 ≠ Return msg) ∧
  (routes_gyms.delete_gym gym_id current_user db).2 = db.
Proof.
  destruct (find_gym db gym_id) as [gym|] eqn:Hgym.
  - rewrite (delete_gym_found _ _ _ _ Hgym). by destruct (_ || _).
  - unfold find_gym in Hgym.
    unfold routes_gyms.delete_gym, crud.get_gym. run. by rewrite Hgym.
Qed.

(** * The gym directory: [crud.get_gyms] *)

(** C7.  The claim is that the listing returns gyms within the filters.  With
    min_price=50 and max_price=100 it returns nothing at all: on every
    database and for every window, [crud.get_gyms] reads
    [models.Gym.subscription_price], an attribute the class does not have,
    and raises [AttributeError]. *)
Theorem get_gyms_price_range_raises db skip limit has_trial :
  (crud.get_gyms skip limit None (Some (50 # 1)%Q) (Some (100 # 1)%Q)
     has_trial db).1 =
  Unhandled (AttributeError "Gym" "subscription_price").
Proof. reflexivity. Qed.

(** Any filter that is supplied makes [crud.get_gyms] raise: it returns only
    when none is, and then the window of all gyms. *)
Lemma get_gyms_Return db skip limit location min_price max_price has_trial l :
  (crud.get_gyms skip limit location min_price max_price has_trial db).1 =
    Return l →
  crud.str_truthy location = false ∧ min_price = None ∧ max_price = None ∧
  has_trial = None ∧
  l = take (Z.to_nat limit) (drop (Z.to_nat skip) (gyms db)).
Proof.
  unfold crud.get_gyms.
  destruct (crud.str_truthy location); [done|].
  destruct min_price; [done|]. destruct max_price; [done|].
  destruct has_trial; [done|].
  run. unfold offset_limit_all. destruct (_ || _); [done|].
  unfold all. run. intros [= Hl]. subst l. repeat split.
  f_equal. f_equal. induction (gyms db) as [|g rows IH]; [done|].
  simpl. by rewrite IH.
Qed.

(** The sibling [crud.list_gyms] names the columns the class has, and returns
    only gyms that pass the filters supplied. *)
Lemma list_gyms_conditions db max_fee trial location l :
  (crud.list_gyms max_fee trial location db).1 = Return l →
  ∃ conds,
    l = List.filter (passes conds) (gyms db) ∧
    (∀ fee, max_fee = Some fee → fee ≠ 0 →
       In (sql_le (λ g, SInt (Gym.subscription_fee g)) (inject_Z fee)) conds) ∧
    (∀ t, trial = Some t →
       In (sql_eq_bool (λ g, sql_of_option SBool (Gym.trial_available g)) t)
          conds).
Proof.
  unfold crud.list_gyms, all. intros Hrun.
  destruct (bool_decide_reflect (default 0 max_fee ≠ 0)) as [Hfee|Hfee],
    trial as [t|], (crud.str_truthy location);
    run in Hrun; injection Hrun as <-;
    (eexists; split; [reflexivity|]); split;
    try (intros fee -> Hne); try (intros t' [= <-]); try done;
    simpl in *; tauto.
Qed.

Lemma list_gyms_sound db max_fee trial location l g :
  (crud.list_gyms max_fee trial location db).1 = Return l →
  g ∈ l →
  g ∈ gyms db ∧
  (∀ fee, max_fee = Some fee → fee ≠ 0 → Gym.subscription_fee g ≤ fee) ∧
  (∀ t, trial = Some t → Gym.trial_available g = Some t).
Proof.
  intros (conds & -> & Hfee & Htrial)%list_gyms_conditions Hg.
  apply list_elem_of_In, filter_In in Hg as [Hin Hpass].
  split; [by apply list_elem_of_In|].
  unfold passes in Hpass. rewrite forallb_forall in Hpass.
  split.
  - intros fee Hmax Hne. specialize (Hpass _ (Hfee fee Hmax Hne)).
    unfold sql_le in Hpass. simpl in Hpass.
    destruct (Qle_bool _ _) eqn:Hle; [|done].
    apply Qle_bool_iff in Hle. by rewrite <- Zle_Qle in Hle.
  - intros t Ht. specialize (Hpass _ (Htrial t Ht)).
    unfold sql_eq_bool in Hpass. simpl in Hpass.
    destruct (Gym.trial_available g) as [c|]; simpl in Hpass; [|done].
    destruct (Bool.eqb c t) eqn:E; [|done].
    by apply Bool.eqb_prop in E as ->.
Qed.

(** * Further properties *)

(** The check of [update_trial_status] is ownership alone: once the booking
    and its gym are found, the caller is refused with 403 exactly when the
    caller's id is not the gym's [owner_id], whatever the caller's role. *)
Lemma update_trial_status_403_iff db trial_id request current_user trial gym :
  find_trial db trial_id = Some trial →
  find_gym db (TrialBooking.gym_id trial) = Some gym →
  (routes_trials.update_trial_status trial_id request current_user db).1 =
    HTTPException 403 (Text "Not authorized to update this trial booking") ↔
  Gym.owner_id gym ≠ User.id current_user.
Proof.
  intros Htrial Hgym.
  rewrite (update_trial_status_found _ _ _ _ _ _ Htrial Hgym).
  destruct (bool_decide_reflect (Gym.owner_id gym ≠ User.id current_user))
    as [Hne|Heq]; [done|].
  split; [|done]. intros H403. exfalso.
  destruct (negb _); [done|].
  pose proof (find_trial_id _ _ _ Htrial) as Hid.
  destruct (TrialStatus_of_name (schemas.status_update request)) as [st|]
    eqn:Hname.
  - rewrite (assign_status_commit_refresh_run db trial _ st) in H403;
      [done|by rewrite Hid|done].
  - unfold assign_status_commit_refresh in H403. by rewrite Hname in H403.
Qed.

Lemma update_trial_status_403_iff_sample :
  (routes_trials.update_trial_status 1
     {| schemas.status_update := "accepted" |} sample.alice
     sample.db_accepted).1 =
    HTTPException 403 (Text "Not authorized to update this trial booking") ↔
  Gym.owner_id sample.iron ≠ User.id sample.alice.
Proof.
  apply (update_trial_status_403_iff sample.db_accepted 1 _ sample.alice
           sample.accepted_booking sample.iron); reflexivity.
Defined.

(** [crud.update_trial_status] has no guard on the current status either:
    when it returns a booking, the rows with that id have the status named,
    and nothing else has changed. *)
Lemma crud_update_trial_status_Return db db' trial_id status trial' :
  crud.update_trial_status trial_id status db = (Return (Some trial'), db') →
  ∃ trial st,
    find_trial db trial_id = Some trial ∧
    TrialStatus_of_name status = Some st ∧
    trial' = TrialBooking.with_status trial st ∧
    db' = set_trial_bookings db
            (with_status_at trial_id st (trial_bookings db)).
Proof.
  intros Hrun. unfold crud.update_trial_status in Hrun. run in Hrun.
  destruct (find_trial db trial_id) as [trial|] eqn:Htrial;
    unfold find_trial in Htrial; rewrite Htrial in Hrun; [|done].
  fold (find_trial db trial_id) in Htrial.
  pose proof (find_trial_id _ _ _ Htrial) as Hid.
  destruct (TrialStatus_of_name status) as [st|] eqn:Hname.
  - rewrite (assign_status_commit_refresh_run db trial _ st) in Hrun;
      [|by rewrite Hid|done].
    injection Hrun as <- <-. exists trial, st. by rewrite Hid.
  - unfold assign_status_commit_refresh in Hrun. by rewrite Hname in Hrun.
Qed.

Lemma crud_update_trial_status_Return_sample :
  ∃ trial st,
    find_trial sample.db_accepted 1 = Some trial ∧
    TrialStatus_of_name "pending" = Some st ∧
    TrialBooking.mk 1 1 1 pending (Some 2000) =
      TrialBooking.with_status trial st ∧
    mkDb sample.people [sample.iron] []
      [TrialBooking.mk 1 1 1 pending (Some 2000)] 2 =
      set_trial_bookings sample.db_accepted
        (with_status_at 1 st (trial_bookings sample.db_accepted)).
Proof.
  apply (crud_update_trial_status_Return sample.db_accepted). reflexivity.
Defined.

Lemma get_gyms_Return_sample :
  crud.str_truthy (Some "") = false ∧ @None float = None ∧
  @None float = None ∧ @None bool = None ∧
  [sample.iron] = take (Z.to_nat 20) (drop (Z.to_nat 0) (gyms sample.db_empty)).
Proof.
  apply (get_gyms_Return sample.db_empty 0 20 (Some "") None None None).
  reflexivity.
Defined.

Lemma list_gyms_sound_sample :
  sample.iron ∈ gyms sample.db_empty ∧
  (∀ fee, Some 100 = Some fee → fee ≠ 0 →
     Gym.subscription_fee sample.iron ≤ fee) ∧
  (∀ t, Some true = Some t → Gym.trial_available sample.iron = Some t).
Proof.
  apply (list_gyms_sound sample.db_empty (Some 100) (Some true)
           (Some "MAIN") [sample.iron]); [reflexivity|by left].
Defined.

(** ** Booking a trial and updating a status: errors and composition *)

(** [book_trial] never returns a booking and never writes.  When the gym is
    missing it answers 404. *)
Lemma book_trial_outcomes db trial current_user utcnow :
  (routes_trials.book_trial trial current_user utcnow db).2 = db ∧
  (∀ b, (routes_trials.book_trial trial current_user utcnow db).1 ≠ Return b) ∧
  (¬ gym_exists db (schemas.gym_id trial) →
   (routes_trials.book_trial trial current_user utcnow db).1 =
     HTTPException 404 (Text "Gym not found")).
Proof.
  unfold routes_trials.book_trial, crud.get_gym. run.
  destruct (first (filter _ (gyms db))) as [gym|] eqn:Hgym; simpl.
  - destruct (first (filter _ (trial_bookings db))); simpl.
    + repeat split; [done|]. intros Hno. exfalso. apply Hno.
      apply gym_exists_find. unfold find_gym. by rewrite Hgym.
    + repeat split; [done|]. intros Hno. exfalso. apply Hno.
      apply gym_exists_find. unfold find_gym. by rewrite Hgym.
  - done.
Qed.

(** What a call of [update_trial_status] that returns has checked. *)
Lemma update_trial_status_Return_checks db db' trial_id request current_user
    trial' :
  routes_trials.update_trial_status trial_id request current_user db =
    (Return trial', db') →
  ∃ trial gym,
    find_trial db trial_id = Some trial ∧
    find_gym db (TrialBooking.gym_id trial) = Some gym ∧
    Gym.owner_id gym = User.id current_user ∧
    schemas.status_update request ∈ valid_status_strings.
Proof.
  intros Hrun.
  destruct (find_trial db trial_id) as [trial|] eqn:Htrial; cycle 1.
  { unfold find_trial in Htrial.
    unfold routes_trials.update_trial_status in Hrun. run in Hrun.
    by rewrite Htrial in Hrun. }
  destruct (find_gym db (TrialBooking.gym_id trial)) as [gym|] eqn:Hgym;
    cycle 1.
  { unfold find_trial in Htrial. unfold find_gym in Hgym.
    unfold routes_trials.update_trial_status, routes_trials.gym_owner_id,
      crud.get_gym in Hrun.
    run in Hrun. rewrite Htrial in Hrun. simpl in Hrun.
    by rewrite Hgym in Hrun. }
  rewrite (update_trial_status_found _ _ _ _ _ _ Htrial Hgym) in Hrun.
  destruct (bool_decide_reflect (Gym.owner_id gym ≠ User.id current_user))
    as [Hne|Heq]; [done|].
  destruct (py_in _ _) eqn:Hin; [|done].
  exists trial, gym. split; [done|]. split; [done|]. split.
  - by destruct (decide (Gym.owner_id gym = User.id current_user)).
  - by apply allowed_iff_valid.
Qed.

(** A call of [update_trial_status] that does not return a booking has
    written nothing; a booking that is missing is answered with 404. *)
Lemma update_trial_status_failure db trial_id request current_user :
  ((∀ trial', (routes_trials.update_trial_status trial_id request current_user
                 db).1 ≠ Return trial') →
   (routes_trials.update_trial_status trial_id request current_user db).2 = db)
  ∧
  (find_trial db trial_id = None →
   routes_trials.update_trial_status trial_id request current_user db =
     (HTTPException 404 (Text "Trial booking not found"), db)).
Proof.
  split.
  - intros Hfail.
    destruct (find_trial db trial_id) as [trial|] eqn:Htrial; cycle 1.
    { unfold find_trial in Htrial.
      unfold routes_trials.update_trial_status. run. by rewrite Htrial. }
    destruct (find_gym db (TrialBooking.gym_id trial)) as [gym|] eqn:Hgym;
      cycle 1.
    { unfold find_trial in Htrial. unfold find_gym in Hgym.
      unfold routes_trials.update_trial_status, routes_trials.gym_owner_id,
        crud.get_gym.
      run. rewrite Htrial. simpl. by rewrite Hgym. }
    rewrite (update_trial_status_found _ _ _ _ _ _ Htrial Hgym) in Hfail |- *.
    destruct (bool_decide _); [done|]. destruct (negb _); [done|].
    destruct (TrialStatus_of_name (schemas.status_update request)) as [st|]
      eqn:Hname.
    + exfalso.
      rewrite (assign_status_commit_refresh_run db trial _ st) in Hfail;
        [by eapply Hfail|by rewrite (find_trial_id _ _ _ Htrial)|done].
    + unfold assign_status_commit_refresh. by rewrite Hname.
  - intros Htrial. unfold find_trial in Htrial.
    unfold routes_trials.update_trial_status. run. by rewrite Htrial.
Qed.

Lemma with_status_at_idem id s rows :
  with_status_at id s (with_status_at id s rows) = with_status_at id s rows.
Proof.
  unfold with_status_at. rewrite <- list_fmap_compose.
  apply list_fmap_ext. intros _ b _. simpl.
  destruct (bool_decide_reflect (TrialBooking.id b = id)) as [Heq|Hne]; simpl.
  - by rewrite bool_decide_eq_true_2.
  - by rewrite bool_decide_eq_false_2.
Qed.

(** Asking twice for the same status is asking once: the second call returns
    the same booking and leaves the database of the first. *)
Lemma update_trial_status_idempotent db db' trial_id request current_user
    trial' :
  routes_trials.update_trial_status trial_id request current_user db =
    (Return trial', db') →
  routes_trials.update_trial_status trial_id request current_user db' =
    (Return trial', db').
Proof.
  intros Hrun.
  pose proof (update_trial_status_Return_checks _ _ _ _ _ _ Hrun)
    as (trial & gym & Htrial & Hgym & Howner & Hvalid).
  pose proof (update_trial_status_Return _ _ _ _ _ _ Hrun)
    as (trial0 & st & Htrial0 & Hname & -> & ->).
  rewrite Htrial in Htrial0. injection Htrial0 as <-.
  pose proof (find_trial_id _ _ _ Htrial) as Hid.
  set (db' := set_trial_bookings db
                (with_status_at trial_id st (trial_bookings db))).
  assert (find_trial db' trial_id = Some (TrialBooking.with_status trial st))
    as Htrial'.
  { unfold db'. rewrite find_trial_with_status_at, Htrial. simpl.
    by rewrite bool_decide_eq_true_2. }
  rewrite (update_trial_status_found db' _ _ _ _ gym Htrial' Hgym).
  rewrite bool_decide_eq_false_2 by (intros H; by apply H).
  apply allowed_iff_valid in Hvalid. rewrite Hvalid. simpl.
  rewrite (assign_status_commit_refresh_run db' _ _ st); [|by simpl; rewrite Hid|done].
  simpl. rewrite Hid. unfold db', set_trial_bookings. simpl.
  by rewrite with_status_at_idem.
Qed.

Lemma update_trial_status_idempotent_sample :
  routes_trials.update_trial_status 2 {| schemas.status_update := "rejected" |}
    sample.olga
    (mkDb sample.people [sample.iron] []
       [sample.accepted_booking; TrialBooking.mk 2 1 1 rejected (Some 2001)] 3)
  = (Return (TrialBooking.mk 2 1 1 rejected (Some 2001)),
     mkDb sample.people [sample.iron] []
       [sample.accepted_booking; TrialBooking.mk 2 1 1 rejected (Some 2001)] 3).
Proof.
  apply (update_trial_status_idempotent sample.db_pending). reflexivity.
Defined.

(** [pending] is an allowed target, so the owner can put a second booking of
    the same user for the same gym back to pending: the database that results
    has two pending bookings of one user for one gym. *)
Lemma update_trial_status_duplicates_pending db trial_id current_user trial
    gym i j b :
  find_trial db trial_id = Some trial →
  find_gym db (TrialBooking.gym_id trial) = Some gym →
  Gym.owner_id gym = User.id current_user →
  trial_bookings db !! i = Some trial →
  trial_bookings db !! j = Some b →
  i ≠ j →
  TrialBooking.user_id b = TrialBooking.user_id trial →
  TrialBooking.gym_id b = TrialBooking.gym_id trial →
  TrialBooking.status b = pending →
  ∃ trial' db',
    routes_trials.update_trial_status trial_id
      {| schemas.status_update := "pending" |} current_user db =
      (Return trial', db') ∧
    ¬ at_most_one_pending db'.
Proof.
  intros Htrial Hgym Howner Hi Hj Hij Hu Hg Hs.
  pose proof (find_trial_id _ _ _ Htrial) as Hid.
  eexists _, _. split.
  - rewrite (update_trial_status_found _ _ _ _ _ _ Htrial Hgym).
    rewrite bool_decide_eq_false_2 by (intros H; by apply H). simpl.
    rewrite (assign_status_commit_refresh_run db trial _ pending);
      [done|by rewrite Hid|done].
  - intros Hinv. apply Hij.
    apply (Hinv i j
             (TrialBooking.with_status trial pending)
             (if bool_decide (TrialBooking.id b = TrialBooking.id trial)
              then TrialBooking.with_status b pending else b)).
    + simpl. unfold with_status_at. rewrite list_lookup_fmap, Hi. simpl.
      by rewrite bool_decide_eq_true_2.
    + simpl. unfold with_status_at. by rewrite list_lookup_fmap, Hj.
    + by destruct (bool_decide _).
    + by destruct (bool_decide _).
    + done.
    + by destruct (bool_decide _).
Qed.

Lemma update_trial_status_duplicates_pending_sample :
  ∃ trial' db',
    routes_trials.update_trial_status 1
      {| schemas.status_update := "pending" |} sample.olga sample.db_pending =
      (Return trial', db') ∧
    ¬ at_most_one_pending db'.
Proof.
  apply (update_trial_status_duplicates_pending sample.db_pending 1
           sample.olga sample.accepted_booking sample.iron 0%nat 1%nat
           sample.pending_booking); done.
Defined.

(** ** Changing a gym: [crud.update_gym] and its route *)

Lemma find_gym_with_gym db g' i :
  find_gym (set_gyms db (with_gym g' (gyms db))) i =
  (λ g, if bool_decide (Gym.id g = Gym.id g') then g' else g) <$> find_gym db i.
Proof.
  unfold find_gym, with_gym. simpl.
  apply (first_filter_fmap (λ g, Gym.id g = i)).
  intros g. destruct (bool_decide_reflect (Gym.id g = Gym.id g')); [|done].
  by rewrite e.
Qed.

Lemma patch_id g u g' : patch g u = Some g' → Gym.id g' = Gym.id g.
Proof. unfold patch. destruct (bool_decide _); [done|]. by intros [= <-]. Qed.

(** [crud.update_gym] on a gym that is found: the patched row is written and
    returned, or the database stops the commit: for a fee out of range first,
    else for a null in a column that refuses it. *)
Lemma crud_update_gym_found db gym_id u g :
  find_gym db gym_id = Some g →
  match patch g u with
  | Some g' =>
      crud.update_gym gym_id u db =
        (Return (Some g'), set_gyms db (with_gym g' (gyms db)))
  | None =>
      if decide (fee_out_of_range u) then
        ∃ msg, crud.update_gym gym_id u db = (Unhandled (DataError msg), db)
      else
        ∃ msg,
          crud.update_gym gym_id u db = (Unhandled (IntegrityError msg), db)
  end.
Proof.
  intros Hg. unfold find_gym in Hg.
  pose proof (first_filter_Some _ _ _ Hg) as [_ Hgid].
  assert (∀ g', Gym.id g' = Gym.id g →
            first (filter (λ x, Gym.id x = Gym.id g')
                     ((λ x, if bool_decide (Gym.id x = Gym.id g') then g'
                            else x) <$> gyms db)) = Some g') as Hre.
  { intros g' Hid.
    pose proof (find_gym_with_gym db g' (Gym.id g')) as H0.
    unfold find_gym, with_gym in H0. simpl in H0.
    rewrite H0, Hid, Hgid, Hg. simpl.
    by rewrite bool_decide_eq_true_2 by by rewrite Hgid. }
  unfold patch, crud.update_gym. run. rewrite Hg.
  destruct (decide (fee_out_of_range u)) as [Hout|Hin].
  - rewrite bool_decide_eq_true_2 by by left.
    destruct Hout as (fee & Hfee & Hout). rewrite Hfee. simpl.
    unfold integer. rewrite bool_decide_eq_false_2 by done. by eexists.
  - assert (integer_or_null "subscription_fee"
              (mjoin (schemas.subscription_fee u)) db = (Return (), db))
      as ->.
    { destruct (schemas.subscription_fee u) as [[fee|]|] eqn:Hfee;
        simpl; try done.
      unfold integer. rewrite bool_decide_eq_true_2; [done|].
      destruct (decide (int4 fee)) as [|Hno]; [done|].
      exfalso. apply Hin. by exists fee. }
    unfold sets_null.
    destruct (schemas.name u) as [[n|]|] eqn:Hn;
      destruct (schemas.address u) as [[a|]|] eqn:Ha;
      destruct (schemas.subscription_fee u) as [[f|]|] eqn:Hf;
      simpl.
    all: try (rewrite bool_decide_eq_true_2 by (right; tauto); by eexists).
    all: try (rewrite bool_decide_eq_false_2
                by (intros [?|[?|[?|?]]]; congruence)).
    all: unfold crud.write_gym; simpl.
    all: match goal with
         | |- context [(λ g0, if bool_decide _ then ?r else g0) <$> _] =>
             pose proof (Hre r eq_refl) as Hr; simpl in Hr; rewrite Hr;
             unfold with_gym; simpl; by rewrite Hgid
         end.
Qed.

(** A call of [crud.update_gym] that returns a gym has written that gym and
    nothing else: the other tables and the gyms with another id are as they
    were, the gym keeps its id, owner and creation time, and [get_gym] reads
    back what was returned. *)
Lemma crud_update_gym_frame db db' gym_id u g' :
  crud.update_gym gym_id u db = (Return (Some g'), db') →
  users db' = users db ∧
  trainers db' = trainers db ∧
  trial_bookings db' = trial_bookings db ∧
  trial_bookings_id_seq db' = trial_bookings_id_seq db ∧
  length (gyms db') = length (gyms db) ∧
  (∀ i g0, gyms db !! i = Some g0 → Gym.id g0 ≠ gym_id →
           gyms db' !! i = Some g0) ∧
  ∃ g, find_gym db gym_id = Some g ∧
       patch g u = Some g' ∧
       Gym.id g' = gym_id ∧
       Gym.owner_id g' = Gym.owner_id g ∧
       Gym.created_at g' = Gym.created_at g ∧
       crud.get_gym gym_id db' = (Return (Some g'), db').
Proof.
  intros Hrun.
  destruct (find_gym db gym_id) as [g|] eqn:Hg; cycle 1.
  { unfold find_gym in Hg. unfold crud.update_gym in Hrun. run in Hrun.
    by rewrite Hg in Hrun. }
  pose proof (crud_update_gym_found db gym_id u g Hg) as Hfound.
  destruct (patch g u) as [g1|] eqn:Hpatch; cycle 1.
  { destruct (decide _); destruct Hfound as [msg Hmsg];
      by rewrite Hmsg in Hrun. }
  rewrite Hfound in Hrun. injection Hrun as -> <-.
  pose proof (patch_id _ _ _ Hpatch) as Hid.
  pose proof (first_filter_Some _ _ _ Hg) as [_ Hgid].
  simpl. repeat split.
  - unfold with_gym. by rewrite length_fmap.
  - intros i g0 Hi Hne. unfold with_gym. rewrite list_lookup_fmap, Hi. simpl.
    rewrite bool_decide_eq_false_2; [done|]. by rewrite Hid, Hgid.
  - exists g. repeat split; try done.
    + by rewrite Hid.
    + unfold patch in Hpatch. destruct (bool_decide _); [done|].
      by injection Hpatch as <-.
    + unfold patch in Hpatch. destruct (bool_decide _); [done|].
      by injection Hpatch as <-.
    + unfold crud.get_gym. run.
      pose proof (find_gym_with_gym db g' gym_id) as Hre.
      unfold find_gym in Hre. simpl in Hre. rewrite Hre.
      fold (find_gym db gym_id). rewrite Hg. simpl.
      by rewrite bool_decide_eq_true_2 by by rewrite Hid.
Qed.

Lemma crud_update_gym_frame_sample :
  users (crud.update_gym 1
           {| schemas.name := None; schemas.address := None;
              schemas.subscription_fee := Some (Some 80);
              schemas.trial_available := Some None;
              schemas.description := None;
              schemas.location_lat := None; schemas.location_lng := None |}
           sample.db_pending).2 = sample.people.
Proof.
  destruct (crud.update_gym 1 _ sample.db_pending) as [o db'] eqn:Hrun.
  assert (∃ g', o = Return (Some g')) as [g' ->].
  { vm_compute in Hrun. injection Hrun as <- _. by eexists. }
  destruct (crud_update_gym_frame _ _ _ _ _ Hrun) as (Hu & _).
  simpl. by rewrite Hu.
Defined.


Lemma with_gym_idem g' rows :
  with_gym g' (with_gym g' rows) = with_gym g' rows.
Proof.
  unfold with_gym. rewrite <- list_fmap_compose.
  apply list_fmap_ext. intros _ g _. simpl.
  destruct (bool_decide_reflect (Gym.id g = Gym.id g')) as [Heq|Hne]; simpl.
  - by rewrite bool_decide_eq_true_2.
  - by rewrite bool_decide_eq_false_2.
Qed.

Lemma set_or_idem {A} (old : A) set : set_or (set_or old set) set = set_or old set.
Proof. by destruct set as [[?|]|]. Qed.

Lemma nullable_idem {A} (old : option A) set :
  crud.nullable (crud.nullable old set) set = crud.nullable old set.
Proof. by destruct set. Qed.

(** Sending the same update twice is sending it once. *)
Lemma crud_update_gym_idempotent db db' gym_id u g' :
  crud.update_gym gym_id u db = (Return (Some g'), db') →
  crud.update_gym gym_id u db' = (Return (Some g'), db').
Proof.
  intros Hrun.
  destruct (find_gym db gym_id) as [g|] eqn:Hg; cycle 1.
  { unfold find_gym in Hg. unfold crud.update_gym in Hrun. run in Hrun.
    by rewrite Hg in Hrun. }
  pose proof (crud_update_gym_found db gym_id u g Hg) as Hfound.
  destruct (patch g u) as [g1|] eqn:Hpatch; cycle 1.
  { destruct (decide _); destruct Hfound as [msg Hmsg];
      by rewrite Hmsg in Hrun. }
  rewrite Hfound in Hrun. injection Hrun as -> <-.
  pose proof (patch_id _ _ _ Hpatch) as Hid.
  pose proof (first_filter_Some _ _ _ Hg) as [_ Hgid].
  set (db' := set_gyms db (with_gym g' (gyms db))).
  assert (find_gym db' gym_id = Some g') as Hg'.
  { unfold db'. rewrite find_gym_with_gym, Hg. simpl.
    by rewrite bool_decide_eq_true_2. }
  assert (patch g' u = Some g') as Hpatch'.
  { unfold patch in Hpatch |- *. destruct (bool_decide _); [done|].
    injection Hpatch as <-. simpl.
    by rewrite !set_or_idem, !nullable_idem. }
  pose proof (crud_update_gym_found db' gym_id u g' Hg') as Hfound'.
  rewrite Hpatch' in Hfound'. rewrite Hfound'.
  unfold db', set_gyms. simpl. by rewrite with_gym_idem.
Qed.

Lemma crud_update_gym_idempotent_sample :
  crud.update_gym 1
    {| schemas.name := None; schemas.address := None;
       schemas.subscription_fee := Some (Some 80);
       schemas.trial_available := None; schemas.description := None;
       schemas.location_lat := None; schemas.location_lng := None |}
    (mkDb sample.people
       [Gym.mk 1 2 "Iron Temple" "1 Main Street" 80 (Some true) None None None
          (Some 1000)] [] [] 1) =
  (Return
     (Some (Gym.mk 1 2 "Iron Temple" "1 Main Street" 80 (Some true) None None
              None (Some 1000))),
   mkDb sample.people
     [Gym.mk 1 2 "Iron Temple" "1 Main Street" 80 (Some true) None None None
        (Some 1000)] [] [] 1).
Proof.
  apply (crud_update_gym_idempotent sample.db_empty). reflexivity.
Defined.

(** Both handlers let through exactly the callers who have the role gym_owner
    or admin and own the gym; everyone else is answered with 403. *)
Lemma gym_mutation_403_iff db gym_id u current_user gym :
  find_gym db gym_id = Some gym →
  ((routes_gyms.update_gym gym_id u current_user db).1 =
     HTTPException 403 (Text "Not authorized to update this gym") ↔
   ¬ may_mutate current_user gym) ∧
  ((routes_gyms.delete_gym gym_id current_user db).1 =
     HTTPException 403 (Text "Not authorized to delete this gym") ↔
   ¬ may_mutate current_user gym).
Proof.
  intros Hg. unfold may_mutate.
  rewrite (update_gym_found _ _ _ _ _ Hg), (delete_gym_found _ _ _ _ Hg).
  rewrite <- role_in_gym_owner_admin.
  pose proof (crud_update_gym_found db gym_id u gym Hg) as Hfound.
  destruct (py_in _ _); simpl;
    destruct (bool_decide_reflect (Gym.owner_id gym ≠ User.id current_user))
      as [Hne|Heq]; simpl.
  - split; (split; [intros _ [_ ?]; done|done]).
  - assert (Gym.owner_id gym = User.id current_user) as Hown
      by by destruct (decide (Gym.owner_id gym = User.id current_user)).
    split; (split; [|intros Hno; exfalso; by apply Hno]).
    + destruct (patch gym u).
      * by rewrite Hfound.
      * destruct (decide _); destruct Hfound as [msg ->]; done.
    + done.
  - split; (split; [intros _ [? _]; done|done]).
  - split; (split; [intros _ [? _]; done|done]).
Qed.

Lemma gym_mutation_403_iff_sample :
  ((routes_gyms.update_gym 1
      {| schemas.name := Some (Some "Iron"); schemas.address := None;
         schemas.subscription_fee := None; schemas.trial_available := None;
         schemas.description := None; schemas.location_lat := None;
         schemas.location_lng := None |} sample.alice sample.db_empty).1 =
     HTTPException 403 (Text "Not authorized to update this gym") ↔
   ¬ may_mutate sample.alice sample.iron) ∧
  ((routes_gyms.delete_gym 1 sample.alice sample.db_empty).1 =
     HTTPException 403 (Text "Not authorized to delete this gym") ↔
   ¬ may_mutate sample.alice sample.iron).
Proof.
  apply (gym_mutation_403_iff sample.db_empty 1 _ sample.alice sample.iron).
  reflexivity.
Defined.

(** A gym that is missing is answered with 404 by the three handlers that
    take its id, and nothing is written. *)
Lemma gym_routes_404 db gym_id u current_user :
  find_gym db gym_id = None →
  routes_gyms.get_gym gym_id db =
    (HTTPException 404 (Text "Gym not found"), db) ∧
  routes_gyms.update_gym gym_id u current_user db =
    (HTTPException 404 (Text "Gym not found"), db) ∧
  routes_gyms.delete_gym gym_id current_user db =
    (HTTPException 404 (Text "Gym not found"), db).
Proof.
  intros Hg. unfold find_gym in Hg.
  unfold routes_gyms.get_gym, routes_gyms.update_gym, routes_gyms.delete_gym,
    crud.get_gym.
  run. by rewrite Hg.
Qed.

Lemma gym_routes_404_sample :
  routes_gyms.get_gym 7 sample.db_empty =
    (HTTPException 404 (Text "Gym not found"), sample.db_empty) ∧
  routes_gyms.update_gym 7
    {| schemas.name := None; schemas.address := None;
       schemas.subscription_fee := None; schemas.trial_available := None;
       schemas.description := None; schemas.location_lat := None;
       schemas.location_lng := None |} sample.olga sample.db_empty =
    (HTTPException 404 (Text "Gym not found"), sample.db_empty) ∧
  routes_gyms.delete_gym 7 sample.olga sample.db_empty =
    (HTTPException 404 (Text "Gym not found"), sample.db_empty).
Proof. by apply gym_routes_404. Defined.

(** ** Creating a gym: [routes_gyms.create_gym] *)

Lemma first_filter_app_fresh {A} (P : A → Prop) `{!∀ x, Decision (P x)}
    (l : list A) (x : A) :
  (∀ y, y ∈ l → ¬ P y) → P x → first (filter P (l ++ [x])) = Some x.
Proof.
  intros Hl Hx. induction l as [|y l IH]; simpl.
  - by rewrite filter_cons_True.
  - rewrite filter_cons_False by (apply Hl; by left).
    apply IH. intros z Hz. apply Hl. by right.
Qed.

Lemma unique_run {A K} `{EqDecision K} (table : Db → list A) (key : A → K)
    constraint k db :
  k ∉ key <$> table db → unique table key constraint k db = (Return (), db).
Proof. intros Hk. unfold unique. run. by rewrite bool_decide_eq_false_2. Qed.

Lemma foreign_key_run {A} (table : Db → list A) (key : A → Z) constraint k db :
  k ∈ key <$> table db → foreign_key table key constraint k db = (Return (), db).
Proof. intros Hk. unfold foreign_key. run. by rewrite bool_decide_eq_true_2. Qed.








(** [create_gym] answers 403 exactly to the callers whose role is neither
    gym_owner nor admin, and then writes nothing. *)
Lemma create_gym_403_iff db gym current_user nextval utcnow :
  ((routes_gyms.create_gym gym current_user nextval utcnow db).1 =
     HTTPException 403 (Text "Not authorized to create gyms") ↔
   ¬ (User.role current_user = gym_owner ∨ User.role current_user = admin)) ∧
  (¬ (User.role current_user = gym_owner ∨ User.role current_user = admin) →
   (routes_gyms.create_gym gym current_user nextval utcnow db).2 = db).
Proof.
  unfold routes_gyms.create_gym. rewrite <- role_in_gym_owner_admin.
  destruct (py_in _ _); simpl.
  - split; [|done]. split; [|done]. intros H403. exfalso.
    unfold crud.create_gym, insert_gym, integer, unique, foreign_key,
      append_gym in H403.
    run in H403.
    destruct (bool_decide (int4 _)); [|done]. simpl in H403.
    destruct (bool_decide (nextval ∈ _)); [done|]. simpl in H403.
    by destruct (bool_decide (User.id current_user ∈ _)).
  - split; [|done]. split; [by intros _ ?|done].
Qed.

(** ** Users: [routes_users] and [utils.get_current_user] *)

Lemma find_user_by_email_None db email :
  find_user_by_email db email = None ↔ email ∉ User.email <$> users db.
Proof.
  unfold find_user_by_email. rewrite first_filter_None. split.
  - intros Hno (u & -> & Hu)%list_elem_of_fmap. by apply (Hno u).
  - intros Hno u Hu <-. apply Hno. by apply list_elem_of_fmap_2.
Qed.

(** Registering with an email that no user has, given an id the table does
    not hold, stores the user as the last row with the role that was asked
    for, whichever it is, and the hash of the password; users keep distinct
    emails. *)
Lemma register_user_creates get_password_hash db user nextval :
  find_user_by_email db (schemas.UserCreate.email user) = None →
  nextval ∉ User.id <$> users db →
  let row :=
    {| User.id := nextval;
       User.name := schemas.UserCreate.name user;
       User.email := schemas.UserCreate.email user;
       User.hashed_password :=
         get_password_hash (schemas.UserCreate.password user);
       User.role := schemas.UserCreate.role user |} in
  routes_users.register_user get_password_hash user nextval db =
    (Return row, set_users db (users db ++ [row])) ∧
  (unique_emails db → unique_emails (set_users db (users db ++ [row]))).
Proof.
  intros Hnone Hfresh row. split.
  - unfold routes_users.register_user, crud.get_user_by_email. run.
    unfold find_user_by_email in Hnone. rewrite Hnone. simpl.
    unfold crud.create_user, insert_user.
    unfold mbind at 1, M_bind. rewrite (unique_run users User.id); [|done].
    unfold mbind, M_bind.
    rewrite (unique_run users User.email);
      [done|by apply find_user_by_email_None].
  - unfold unique_emails. intros Hnd.
    change (users (set_users db (users db ++ [row]))) with (users db ++ [row]).
    rewrite fmap_app. apply list.NoDup_app.
    split; [done|]. split; [|apply NoDup_singleton].
    intros e He Hin. apply list_elem_of_singleton in Hin. subst e.
    by apply find_user_by_email_None in Hnone.
Qed.

Lemma register_user_creates_sample :
  let row :=
    {| User.id := 4; User.name := "Bob"; User.email := "bob@example.com";
       User.hashed_password := "$2b$12$hunter2"; User.role := admin |} in
  routes_users.register_user sample.get_password_hash sample.bob_request 4
    sample.db_empty =
    (Return row, set_users sample.db_empty (users sample.db_empty ++ [row])) ∧
  (unique_emails sample.db_empty →
   unique_emails (set_users sample.db_empty (users sample.db_empty ++ [row]))).
Proof.
  apply (register_user_creates sample.get_password_hash sample.db_empty
           sample.bob_request 4).
  - reflexivity.
  - apply (bool_decide_unpack _). by vm_compute.
Defined.

(** Registering with an email that a user already has is answered with 400,
    before the password is hashed or anything is written. *)
Lemma register_user_duplicate get_password_hash db user nextval u :
  find_user_by_email db (schemas.UserCreate.email user) = Some u →
  routes_users.register_user get_password_hash user nextval db =
    (HTTPException 400 (Text "Email already registered"), db).
Proof.
  intros Hu. unfold find_user_by_email in Hu.
  unfold routes_users.register_user, crud.get_user_by_email. run.
  by rewrite Hu.
Qed.

Lemma register_user_duplicate_sample :
  routes_users.register_user sample.get_password_hash
    (schemas.UserCreate.mk "Alice again" "alice@example.com" "pw" seeker) 4
    sample.db_empty =
  (HTTPException 400 (Text "Email already registered"), sample.db_empty).
Proof.
  by apply (register_user_duplicate _ _ _ _ sample.alice).
Defined.

(** What [login] does: it returns a token exactly when a user has the email
    and the password verifies against that user's hash; the token is for the
    user's email and expires 60 minutes after the call, whatever
    [ACCESS_TOKEN_EXPIRE_MINUTES] is.  An unknown email and a wrong password
    get the same 401.  Nothing is written. *)
Lemma login_outcome verify_password jwt_encode ACCESS_TOKEN_EXPIRE_MINUTES
    username password utcnow db :
  routes_users.login verify_password jwt_encode ACCESS_TOKEN_EXPIRE_MINUTES
    username password utcnow db =
  match find_user_by_email db username with
  | Some u =>
      if verify_password password (User.hashed_password u) then
        (Return {| schemas.access_token := jwt_encode username (utcnow + 3600);
                   schemas.token_type := "bearer" |}, db)
      else (HTTPException 401 (Text "Invalid email or password"), db)
  | None => (HTTPException 401 (Text "Invalid email or password"), db)
  end.
Proof.
  unfold routes_users.login, crud.get_user_by_email, find_user_by_email. run.
  destruct (first (filter _ (users db))) as [u|] eqn:Hu; [|done].
  apply first_filter_Some in Hu as [_ Hemail].
  destruct (verify_password _ _); simpl; [|done].
  unfold utils.create_access_token, utils.minutes. simpl.
  by rewrite Hemail.
Qed.

(** A user who has just registered can log in with the password given, as
    long as the hash verifies against it. *)
Lemma register_then_login get_password_hash verify_password jwt_encode
    ACCESS_TOKEN_EXPIRE_MINUTES user nextval utcnow db db' u :
  verify_password (schemas.UserCreate.password user)
    (get_password_hash (schemas.UserCreate.password user)) = true →
  routes_users.register_user get_password_hash user nextval db =
    (Return u, db') →
  routes_users.login verify_password jwt_encode ACCESS_TOKEN_EXPIRE_MINUTES
    (schemas.UserCreate.email user) (schemas.UserCreate.password user) utcnow
    db' =
  (Return {| schemas.access_token :=
               jwt_encode (schemas.UserCreate.email user) (utcnow + 3600);
             schemas.token_type := "bearer" |}, db').
Proof.
  intros Hverify Hreg.
  destruct (find_user_by_email db (schemas.UserCreate.email user)) as [u0|]
    eqn:Hfind.
  { by rewrite (register_user_duplicate _ _ _ _ _ Hfind) in Hreg. }
  assert (nextval ∉ User.id <$> users db) as Hfresh.
  { intros Hin.
    unfold routes_users.register_user, crud.get_user_by_email in Hreg.
    run in Hreg. unfold find_user_by_email in Hfind. rewrite Hfind in Hreg.
    simpl in Hreg. unfold crud.create_user, insert_user, unique in Hreg.
    run in Hreg. by rewrite bool_decide_eq_true_2 in Hreg. }
  destruct (register_user_creates get_password_hash db user nextval Hfind
              Hfresh) as [Hrun _].
  rewrite Hrun in Hreg. injection Hreg as <- <-.
  rewrite login_outcome.
  unfold find_user_by_email. simpl.
  rewrite first_filter_app_fresh; simpl; [by rewrite Hverify| |done].
  intros y Hy Heq. apply find_user_by_email_None in Hfind. apply Hfind.
  rewrite <- Heq. by apply list_elem_of_fmap_2.
Qed.

Lemma register_then_login_sample :
  routes_users.login sample.verify_password sample.jwt_encode 60
    "bob@example.com" "hunter2" 9000
    (set_users sample.db_empty
       (users sample.db_empty ++
        [User.mk 4 "Bob" "bob@example.com" "$2b$12$hunter2" admin])) =
  (Return {| schemas.access_token := "bob@example.com";
             schemas.token_type := "bearer" |},
   set_users sample.db_empty
     (users sample.db_empty ++
      [User.mk 4 "Bob" "bob@example.com" "$2b$12$hunter2" admin])).
Proof.
  apply (register_then_login sample.get_password_hash sample.verify_password
           sample.jwt_encode 60 sample.bob_request 4 9000 sample.db_empty _
           (User.mk 4 "Bob" "bob@example.com" "$2b$12$hunter2" admin));
    reflexivity.
Defined.

(** [get_current_user] returns only a user of the table whose email is the
    subject of the token; every other token is answered with the same 401;
    nothing is written. *)
Lemma get_current_user_outcome jwt_decode token utcnow db :
  (utils.get_current_user jwt_decode token utcnow db).2 = db ∧
  ((∃ u, (utils.get_current_user jwt_decode token utcnow db).1 = Return u ∧
         u ∈ users db ∧
         jwt_decode token utcnow = utils.Payload (Some (User.email u))) ∨
   (utils.get_current_user jwt_decode token utcnow db).1 =
     HTTPException 401 (Text "Could not validate credentials")).
Proof.
  unfold utils.get_current_user, utils.credentials_exc, crud.get_user_by_email.
  destruct (jwt_decode token utcnow) as [|[email|]]; run; try by (split; [|right]).
  destruct (first (filter _ (users db))) as [u|] eqn:Hu;
    [|by (split; [|right])].
  apply first_filter_Some in Hu as [Hin Hemail].
  split; [done|]. left. exists u. by rewrite Hemail.
Qed.

(** The token [login] returns, presented while the library accepts it,
    identifies the user who logged in. *)
Lemma login_then_current_user verify_password jwt_encode jwt_decode
    ACCESS_TOKEN_EXPIRE_MINUTES username password t0 t1 db db' token :
  routes_users.login verify_password jwt_encode ACCESS_TOKEN_EXPIRE_MINUTES
    username password t0 db = (Return token, db') →
  jwt_decode (schemas.access_token token) t1 = utils.Payload (Some username) →
  ∃ u,
    utils.get_current_user jwt_decode (schemas.access_token token) t1 db' =
      (Return u, db') ∧
    db' = db ∧
    User.email u = username ∧
    verify_password password (User.hashed_password u) = true.
Proof.
  intros Hlogin Hdecode. rewrite login_outcome in Hlogin.
  destruct (find_user_by_email db username) as [u|] eqn:Hu; [|done].
  destruct (verify_password _ _) eqn:Hverify; [|done].
  injection Hlogin as <- <-. exists u.
  unfold utils.get_current_user. simpl in *. rewrite Hdecode.
  unfold crud.get_user_by_email. run.
  unfold find_user_by_email in Hu. rewrite Hu.
  by apply first_filter_Some in Hu as [_ ?].
Qed.

Lemma login_then_current_user_sample :
  ∃ u,
    utils.get_current_user sample.jwt_decode "alice@example.com" 9100
      (set_users sample.db_empty
         [User.mk 1 "Alice" "alice@example.com" "$2b$12$secret" seeker]) =
      (Return u,
       set_users sample.db_empty
         [User.mk 1 "Alice" "alice@example.com" "$2b$12$secret" seeker]) ∧
    set_users sample.db_empty
      [User.mk 1 "Alice" "alice@example.com" "$2b$12$secret" seeker] =
    set_users sample.db_empty
      [User.mk 1 "Alice" "alice@example.com" "$2b$12$secret" seeker] ∧
    User.email u = "alice@example.com" ∧
    sample.verify_password "secret" (User.hashed_password u) = true.
Proof.
  apply (login_then_current_user sample.verify_password sample.jwt_encode
           sample.jwt_decode 60 "alice@example.com" "secret" 9000 9100
           (set_users sample.db_empty
              [User.mk 1 "Alice" "alice@example.com" "$2b$12$secret" seeker])
           _ {| schemas.access_token := "alice@example.com";
                schemas.token_type := "bearer" |});
    reflexivity.
Defined.

(** ** The helpers of [utils.py] *)

(** [ensure_role_owner] compares with [UserRole.owner], a member the
    enumeration does not have: neither it nor [ensure_owner_and_ownership]
    ever lets a caller through or answers 403, whoever the caller is. *)
Lemma ensure_owner_never_decides gym user db :
  utils.ensure_role_owner user db =
    (Unhandled (AttributeError "UserRole" "owner"), db) ∧
  utils.ensure_owner_and_ownership gym user db =
    (Unhandled (AttributeError "UserRole" "owner"), db).
Proof. split; reflexivity. Qed.

(** ** Trainers and trial requests: the rest of [crud.py] *)

Lemma filter_snoc {A} (P : A → Prop) `{!∀ x, Decision (P x)} (l : list A) x :
  filter P (l ++ [x]) = filter P l ++ (if decide (P x) then [x] else []).
Proof.
  induction l as [|y l IH]; simpl.
  - rewrite filter_cons, filter_nil. by destruct (decide (P x)).
  - rewrite !filter_cons, IH. by destruct (decide (P y)).
Qed.






(** What [create_trial_request] does for a user and a gym that exist, when
    every id in the table was handed out by the sequence: it stores a pending
    booking as the last row, with the next id and the time of the call, and
    the ids stay below the sequence and distinct. *)
Lemma create_trial_request_creates db user_id gym_id utcnow :
  user_id ∈ User.id <$> users db →
  gym_id ∈ Gym.id <$> gyms db →
  ids_below_seq db →
  let row :=
    {| TrialBooking.id := trial_bookings_id_seq db;
       TrialBooking.user_id := user_id;
       TrialBooking.gym_id := gym_id;
       TrialBooking.status := pending;
       TrialBooking.created_at := Some utcnow |} in
  let db' :=
    {| users := users db; gyms := gyms db; trainers := trainers db;
       trial_bookings := trial_bookings db ++ [row];
       trial_bookings_id_seq := trial_bookings_id_seq db + 1 |} in
  crud.create_trial_request user_id gym_id utcnow db = (Return row, db') ∧
  ids_below_seq db' ∧
  (NoDup (TrialBooking.id <$> trial_bookings db) →
   NoDup (TrialBooking.id <$> trial_bookings db')) ∧
  (crud.list_trial_requests_for_gym gym_id db').1 =
    Return (filter (λ b, TrialBooking.gym_id b = gym_id) (trial_bookings db)
            ++ [row]).
Proof.
  intros Huser Hgym Hseq row db'.
  assert (trial_bookings_id_seq db ∉ TrialBooking.id <$> trial_bookings db)
    as Hfresh.
  { intros (b & Hid & Hb)%list_elem_of_fmap. apply Hseq in Hb. lia. }
  repeat split.
  - unfold crud.create_trial_request, TrialBooking_new. simpl.
    unfold mbind at 1, M_bind. unfold mret at 1, M_ret.
    unfold mbind at 1, M_bind. unfold trial_bookings_nextval.
    unfold mbind at 1, M_bind. rewrite (unique_run trial_bookings); [|done].
    unfold mbind at 1, M_bind. rewrite (foreign_key_run users); [|done].
    unfold mbind, M_bind. rewrite (foreign_key_run gyms); [|done].
    reflexivity.
  - intros b Hb. unfold db' in Hb |- *. simpl in *.
    apply elem_of_app in Hb as [Hb|Hb].
    + apply Hseq in Hb. lia.
    + apply list_elem_of_singleton in Hb. subst b. simpl. lia.
  - intros Hnd. unfold db'. simpl. rewrite fmap_app. apply list.NoDup_app.
    split; [done|]. split; [|apply NoDup_singleton].
    intros i Hi Hin. apply list_elem_of_singleton in Hin. by subst i.
  - unfold crud.list_trial_requests_for_gym, db'. run.
    rewrite filter_snoc. simpl. by rewrite decide_True.
Qed.

Lemma create_trial_request_creates_sample :
  let row := TrialBooking.mk 3 1 1 pending (Some 7000) in
  let db' :=
    mkDb sample.people [sample.iron] []
      [sample.accepted_booking; sample.pending_booking; row] 4 in
  crud.create_trial_request 1 1 7000 sample.db_pending = (Return row, db') ∧
  ids_below_seq db' ∧
  (NoDup (TrialBooking.id <$> trial_bookings sample.db_pending) →
   NoDup (TrialBooking.id <$> trial_bookings db')) ∧
  (crud.list_trial_requests_for_gym 1 db').1 =
    Return (filter (λ b, TrialBooking.gym_id b = 1)
              (trial_bookings sample.db_pending) ++ [row]).
Proof.
  apply (create_trial_request_creates sample.db_pending 1 1 7000).
  - apply (bool_decide_unpack _). by vm_compute.
  - apply (bool_decide_unpack _). by vm_compute.
  - intros b Hb. simpl in Hb.
    apply elem_of_cons in Hb as [->|Hb]; [done|].
    apply list_elem_of_singleton in Hb as ->. done.
Defined.

(** [create_trial_request] has no check for a pending booking: called for a
    user who has one for the gym, it stores a second. *)
Lemma create_trial_request_duplicates_pending db user_id gym_id utcnow :
  user_id ∈ User.id <$> users db →
  gym_id ∈ Gym.id <$> gyms db →
  ids_below_seq db →
  has_pending db user_id gym_id →
  ∃ row db',
    crud.create_trial_request user_id gym_id utcnow db = (Return row, db') ∧
    ¬ at_most_one_pending db'.
Proof.
  intros Huser Hgym Hseq (b & Hb & Hu & Hg & Hs).
  destruct (create_trial_request_creates db user_id gym_id utcnow Huser Hgym
              Hseq) as (Hrun & _).
  eexists _, _. split; [exact Hrun|].
  apply list_elem_of_lookup in Hb as [i Hi].
  intros Hinv.
  pose proof (lookup_lt_Some _ _ _ Hi) as Hlt.
  enough (i = length (trial_bookings db)) by lia.
  eapply (Hinv i (length (trial_bookings db)) b); simpl.
  - by rewrite lookup_app_l.
  - by rewrite list_lookup_middle.
  - done.
  - done.
  - done.
  - done.
Qed.

Lemma create_trial_request_duplicates_pending_sample :
  ∃ row db',
    crud.create_trial_request 1 1 7000 sample.db_pending = (Return row, db') ∧
    ¬ at_most_one_pending db'.
Proof.
  apply (create_trial_request_duplicates_pending sample.db_pending 1 1 7000).
  - apply (bool_decide_unpack _). by vm_compute.
  - apply (bool_decide_unpack _). by vm_compute.
  - intros b Hb. simpl in Hb.
    apply elem_of_cons in Hb as [->|Hb]; [done|].
    apply list_elem_of_singleton in Hb as ->. done.
  - exists sample.pending_booking. split; [|done]. right. by left.
Defined.

(** ** Invariants of the writes *)

(** Whatever [register_user] answers, users keep distinct emails; an email
    that is registered already is answered with 400 and nothing is written. *)
Lemma register_user_keeps_unique_emails get_password_hash db user nextval :
  unique_emails db →
  unique_emails
    (routes_users.register_user get_password_hash user nextval db).2 ∧
  (is_Some (find_user_by_email db (schemas.UserCreate.email user)) →
   routes_users.register_user get_password_hash user nextval db =
     (HTTPException 400 (Text "Email already registered"), db)).
Proof.
  intros Hnd. split.
  - destruct (find_user_by_email db (schemas.UserCreate.email user)) as [u|]
      eqn:Hfind.
    { by rewrite (register_user_duplicate _ _ _ _ _ Hfind). }
    destruct (decide (nextval ∈ User.id <$> users db)) as [Hin|Hfresh].
    + unfold routes_users.register_user, crud.get_user_by_email. run.
      unfold find_user_by_email in Hfind. rewrite Hfind. simpl.
      unfold crud.create_user, insert_user, unique. run.
      by rewrite bool_decide_eq_true_2.
    + destruct (register_user_creates get_password_hash db user nextval Hfind
                  Hfresh) as [Hrun Hkeep].
      rewrite Hrun. by apply Hkeep.
  - intros [u Hu]. by eapply register_user_duplicate.
Qed.

Lemma register_user_keeps_unique_emails_sample :
  unique_emails
    (routes_users.register_user sample.get_password_hash sample.bob_request 4
       sample.db_empty).2 ∧
  (is_Some (find_user_by_email sample.db_empty "bob@example.com") →
   routes_users.register_user sample.get_password_hash sample.bob_request 4
     sample.db_empty =
     (HTTPException 400 (Text "Email already registered"), sample.db_empty)).
Proof.
  apply (register_user_keeps_unique_emails sample.get_password_hash
           sample.db_empty sample.bob_request 4).
  unfold unique_emails. simpl.
  repeat (apply list.NoDup_cons; split;
          [rewrite ?not_elem_of_cons; repeat split; try done;
           apply not_elem_of_nil|]).
  apply NoDup_nil_2.
Defined.

Lemma with_gym_ids g' rows :
  Gym.id <$> with_gym g' rows = Gym.id <$> rows.
Proof.
  unfold with_gym. rewrite <- list_fmap_compose.
  apply list_fmap_ext. intros _ g _. simpl.
  by destruct (bool_decide_reflect (Gym.id g = Gym.id g')).
Qed.

(** Whatever [create_gym] and [update_gym] answer, gyms keep distinct ids. *)
Lemma gym_writes_keep_unique_ids db :
  unique_gym_ids db →
  (∀ gym current_user nextval utcnow,
     unique_gym_ids
       (routes_gyms.create_gym gym current_user nextval utcnow db).2) ∧
  (∀ gym_id u current_user,
     unique_gym_ids (routes_gyms.update_gym gym_id u current_user db).2).
Proof.
  intros Hnd. split.
  - intros gym current_user nextval utcnow.
    unfold routes_gyms.create_gym.
    destruct (negb _); [done|].
    unfold crud.create_gym, insert_gym, integer, unique, foreign_key,
      append_gym. run.
    destruct (bool_decide (int4 _)); [|done]. simpl.
    destruct (bool_decide_reflect (nextval ∈ Gym.id <$> gyms db))
      as [Hin|Hfresh]; [done|]. simpl.
    destruct (bool_decide (User.id current_user ∈ _)); [|done]. simpl.
    unfold unique_gym_ids. simpl. rewrite fmap_app. apply list.NoDup_app.
    split; [done|]. split; [|apply NoDup_singleton].
    intros i Hi Hin. apply list_elem_of_singleton in Hin. by subst i.
  - intros gym_id u current_user.
    destruct (find_gym db gym_id) as [g|] eqn:Hg; cycle 1.
    { unfold find_gym in Hg. unfold routes_gyms.update_gym, crud.get_gym.
      run. by rewrite Hg. }
    rewrite (update_gym_found _ _ _ _ _ Hg).
    destruct (_ || _); [done|].
    pose proof (crud_update_gym_found db gym_id u g Hg) as Hfound.
    destruct (patch g u) as [g'|].
    + rewrite Hfound. unfold unique_gym_ids. simpl. by rewrite with_gym_ids.
    + destruct (decide _); destruct Hfound as [msg ->]; done.
Qed.

Lemma gym_writes_keep_unique_ids_sample :
  (∀ gym current_user nextval utcnow,
     unique_gym_ids
       (routes_gyms.create_gym gym current_user nextval utcnow
          sample.db_empty).2) ∧
  (∀ gym_id u current_user,
     unique_gym_ids
       (routes_gyms.update_gym gym_id u current_user sample.db_empty).2).
Proof.
  apply gym_writes_keep_unique_ids. unfold unique_gym_ids. simpl.
  apply list.NoDup_cons. split; [apply not_elem_of_nil|apply NoDup_nil_2].
Defined.

(** ** The status check of [update_trial_status] and admins *)

(** C6.  The claim is that every authorized caller, an admin included, gets
    400 for a status outside pending, accepted and rejected, and passes the
    check with a status among them.  An admin who does not own the booking's
    gym never reaches the check: by the comparison of the role with the
    string "admin", which is never equal, the handler answers 403 whatever
    the status is, so "approved" is not answered with 400 and "accepted" is
    not stored. *)
Theorem update_trial_status_admin_before_check db trial_id request
    current_user trial gym :
  find_trial db trial_id = Some trial →
  find_gym db (TrialBooking.gym_id trial) = Some gym →
  User.role current_user = admin →
  Gym.owner_id gym ≠ User.id current_user →
  routes_trials.update_trial_status trial_id request current_user db =
    (HTTPException 403 (Text "Not authorized to update this trial booking"),
     db) ∧
  (routes_trials.update_trial_status trial_id request current_user db).1 ≠
    HTTPException 400 (StatusMustBeOneOf [pending; accepted; rejected]) ∧
  (∀ trial',
     (routes_trials.update_trial_status trial_id request current_user db).1 ≠
       Return trial').
Proof.
  intros Htrial Hgym _ Howner.
  rewrite (update_trial_status_found _ _ _ _ _ _ Htrial Hgym).
  by rewrite bool_decide_eq_true_2.
Qed.

Lemma update_trial_status_admin_before_check_sample :
  routes_trials.update_trial_status 2 {| schemas.status_update := "approved" |}
    sample.adam sample.db_pending =
    (HTTPException 403 (Text "Not authorized to update this trial booking"),
     sample.db_pending) ∧
  (routes_trials.update_trial_status 2
     {| schemas.status_update := "approved" |} sample.adam
     sample.db_pending).1 ≠
    HTTPException 400 (StatusMustBeOneOf [pending; accepted; rejected]) ∧
  (∀ trial',
     (routes_trials.update_trial_status 2
        {| schemas.status_update := "approved" |} sample.adam
        sample.db_pending).1 ≠ Return trial').
Proof.
  apply (update_trial_status_admin_before_check sample.db_pending 2 _
           sample.adam sample.pending_booking sample.iron);
    [reflexivity|reflexivity|reflexivity|by vm_compute].
Defined.

(** ** [crud.update_trial_status]: no guard on the current status *)

(** For a booking that exists, whatever its current status, and a status that
    names a member, [crud.update_trial_status] returns the booking with that
    status and stores it on the rows with that id, changing nothing else.  A
    booking that is missing gives [None], and nothing is written. *)
Lemma crud_update_trial_status_no_guard db trial_id status :
  (∀ trial st,
     find_trial db trial_id = Some trial →
     TrialStatus_of_name status = Some st →
     crud.update_trial_status trial_id status db =
       (Return (Some (TrialBooking.with_status trial st)),
        set_trial_bookings db
          (with_status_at trial_id st (trial_bookings db)))) ∧
  (find_trial db trial_id = None →
   crud.update_trial_status trial_id status db = (Return None, db)).
Proof.
  split.
  - intros trial st Htrial Hname.
    pose proof (find_trial_id _ _ _ Htrial) as Hid.
    unfold crud.update_trial_status. run.
    unfold find_trial in Htrial. rewrite Htrial.
    fold (find_trial db trial_id) in Htrial.
    rewrite (assign_status_commit_refresh_run db trial _ st);
      [|by rewrite Hid|done].
    by rewrite Hid.
  - intros Htrial. unfold find_trial in Htrial.
    unfold crud.update_trial_status. run. by rewrite Htrial.
Qed.
